(** * pion/srtp: the RTP packet orchestrator (srtp.go)

    A shallow embedding of [decryptRTP], [DecryptRTP], [EncryptRTP] and
    [encryptRTP] of srtp.go.  The four functions orchestrate collaborators
    that live outside the file: the transform ([c.cipher], an interface), the
    replay detector (an interface), the RTP header codec, the per-SSRC
    rollover bookkeeping and the buffer helper.  Interfaces are type classes;
    the Context is explicit state; every collaborator call is recorded in a
    chronological trace so that statements about ordering can be made. *)

From Stdlib Require Import ZArith List String Lia Bool.
From stdpp Require Import gmap list.

Local Open Scope Z_scope.

(** ** Machine integers *)

(** Conversion to [uint32] and [uint64], with the wrap-around written out. *)
Definition uint32 (x : Z) : Z := x mod 2 ^ 32.
Definition uint64 (x : Z) : Z := x mod 2 ^ 64.

(** [(uint64(roc) << 16) | uint64(seq)]: the shift is taken in 64 bits. *)
Definition packetIndex (roc seq : Z) : Z :=
  Z.lor (uint64 (Z.shiftl (uint64 roc) 16)) (uint64 seq).

(** ** Buffers *)

(** A Go byte slice: the identity of its backing array, the bytes of the
    backing array from the slice's start up to its capacity, and its length.
    Bytes are integers in [0, 256). *)
Record slice := mkSlice { base : nat; arr : list Z; len : Z }.

Definition cap (s : slice) : Z := Z.of_nat (length (arr s)).
Definition contents (s : slice) : list Z := firstn (Z.to_nat (len s)) (arr s).

(** The nil slice. *)
Definition nilSlice : slice := mkSlice 0 [] 0.

(** [len(b)] of an input buffer given by its bytes.  Go's [int] has 64
    bits; buffer lengths and the sums of a few of them stay far below its
    range, so they are integers here. *)
Definition blen (b : list Z) : Z := Z.of_nat (length b).

(** ** rtp.Header *)

(** The fixed part of an RTP header; srtp.go reads [SSRC] and
    [SequenceNumber] and hands the whole header to the transform. *)
Record Header := mkHeader {
  Version : Z;
  Padding : bool;
  Extension : bool;
  Marker : bool;
  PayloadType : Z;
  SequenceNumber : Z;
  Timestamp : Z;
  SSRC : Z;
  CSRC : list Z
}.

(** [&rtp.Header{}] *)
Definition zeroHeader : Header :=
  mkHeader 0 false false false 0 0 0 0 [].

(** ** Errors and results *)

(** The errors srtp.go builds itself, and [errForeign] for an error value
    handed back by a collaborator and returned verbatim. *)
Inductive error :=
| errTooShortRTP (n : Z)
| duplicatedError (Proto : string) (dupSSRC : Z) (Index : Z)
| ErrMKINotFound
| errExceededMaxPackets
| errForeign (msg : string).

(** What a call yields: a value, an [error], or a run-time panic (a slice
    expression out of range). *)
Inductive result (A : Type) :=
| Ok (a : A)
| Err (e : error)
| Panic.
Arguments Ok {A} a.
Arguments Err {A} e.
Arguments Panic {A}.

Definition isOk {A} (r : result A) : bool :=
  match r with Ok _ => true | _ => false end.

(** ** Collaborator interfaces *)

(** The [srtpCipher] interface, as far as srtp.go calls it. *)
Class srtpCipher (Cipher : Type) := {
  AuthTagRTPLen : Cipher -> string + Z;
  AEADAuthTagLen : Cipher -> string + Z;
  getMKI : Cipher -> list Z -> bool -> list Z;
  cipher_encryptRTP : Cipher -> slice -> Header -> list Z -> Z -> string + slice;
  cipher_decryptRTP : Cipher -> slice -> list Z -> Header -> Z -> Z -> string + slice
}.

(** [replaydetector.ReplayDetector]: [Check] answers whether the index is
    acceptable and hands back the deferred commit, a closure over the
    detector that is run by the caller. *)
Class ReplayDetector (RD : Type) := {
  Check : RD -> Z -> (RD -> RD) * bool
}.

(** The rollover bookkeeping of [srtpSSRCState]: the zero value of a new
    entry, the read-only estimate and the commit. *)
Class Rollover (S : Type) := {
  zeroSeq : S;
  nextRolloverCount : S -> Z -> Z * Z * bool;
  updateRolloverCount : S -> Z -> Z -> S
}.

(** [Unmarshal] of [rtp.Header]: fills the header in place from the buffer and
    returns the number of header bytes, or an error. *)
Class HeaderCodec := {
  Unmarshal : Header -> list Z -> Header * (string + Z)
}.

(** ** Events *)

(** One constructor per collaborator call of srtp.go, with the arguments the
    statements below talk about. *)
Inductive event :=
| EvUnmarshal (buf : list Z)
| EvAuthTagRTPLen
| EvAEADAuthTagLen
| EvGetState (ssrc : Z)
| EvNextRolloverCount (ssrc seq : Z)
| EvCheck (ssrc index : Z)
| EvGetMKI
| EvGrow (size : Z)
| EvDecrypt (dst : slice) (roc : Z)
| EvMarkAsValid (ssrc index : Z)
| EvUpdateRolloverCount (ssrc seq diff : Z)
| EvEncrypt (payload : list Z) (roc : Z).

Section Orchestrator.

Context {Cipher RD Seq : Type}.
Context `{!srtpCipher Cipher, !ReplayDetector RD, !Rollover Seq, !HeaderCodec}.

(** ** Session state *)

(** [srtpSSRCState]: the rollover bookkeeping and the replay detector of one
    source. *)
Record srtpSSRCState := mkSSRCState {
  ssrc : Z;
  seqState : Seq;
  replayDetector : RD
}.

(** The fields of [Context] that srtp.go touches.  [srtpSSRCStates] holds
    pointers in Go; here the key stands for the pointer and the entry is
    updated in place with [alter]. *)
Record Context := mkContext {
  cipher : Cipher;
  sendMKI : list Z;
  mkis : gmap (list Z) Cipher;
  srtpSSRCStates : gmap Z srtpSSRCState;
  newSRTPReplayDetector : RD
}.

Definition withStates (c : Context) (m : gmap Z srtpSSRCState) : Context :=
  mkContext (cipher c) (sendMKI c) (mkis c) m (newSRTPReplayDetector c).

(** The world a call runs in: the context, the trace of collaborator calls
    so far (oldest first) and the allocator's next backing-array name. *)
Record World := mkWorld {
  ctx : Context;
  trace : list event;
  nextBase : nat
}.

(** ** The monad of a call *)

Definition M (A : Type) : Type := World -> result A * World.

Definition ret {A} (a : A) : M A := fun w => (Ok a, w).

Definition bind {A B} (m : M A) (k : A -> M B) : M B :=
  fun w =>
    match m w with
    | (Ok a, w') => k a w'
    | (Err e, w') => (Err e, w')
    | (Panic, w') => (Panic, w')
    end.

Notation "x <- c1 ;; c2" := (bind c1 (fun x => c2))
  (at level 100, c1 at next level, right associativity).
Notation "c1 ;;; c2" := (bind c1 (fun _ => c2))
  (at level 100, right associativity).

Definition throw {A} (e : error) : M A := fun w => (Err e, w).
Definition panic {A} : M A := fun w => (Panic, w).
Definition getCtx : M Context := fun w => (Ok (ctx w), w).

Definition emit (e : event) : M unit :=
  fun w => (Ok tt, mkWorld (ctx w) (trace w ++ [e]) (nextBase w)).

Definition modifyStates (f : gmap Z srtpSSRCState -> gmap Z srtpSSRCState) : M unit :=
  fun w => (Ok tt, mkWorld (withStates (ctx w) (f (srtpSSRCStates (ctx w))))
                           (trace w) (nextBase w)).

(** A collaborator's [(value, error)] pair: the error is returned as it is. *)
Definition liftE {A} (r : string + A) : M A :=
  match r with
  | inl msg => throw (errForeign msg)
  | inr a => ret a
  end.

(** ** Helpers of the package that srtp.go calls *)

(** The entry made for a source on its first packet: zero rollover
    bookkeeping and a new replay detector. *)
Definition newState (c : Context) (id : Z) : srtpSSRCState :=
  mkSSRCState id zeroSeq (newSRTPReplayDetector c).

(** Modelled from the spec: [getSRTPSSRCState] is not in srtp.go.  The
    Sequence State of a source is created lazily on first reference, with a
    new replay detector, and is owned by the registry; later references give
    the same entry.  The result is the entry's key, standing for the pointer. *)
Definition getSRTPSSRCState (id : Z) : M Z :=
  emit (EvGetState id) ;;;
  c <- getCtx ;;
  match srtpSSRCStates c !! id with
  | Some _ => ret id
  | None => modifyStates (fun m => <[id := newState c id]> m) ;;; ret id
  end.

(** Reading through the pointer: the entry the key names (a new entry where
    there is none yet, which is what [getSRTPSSRCState] would create). *)
Definition stateOf (c : Context) (id : Z) : srtpSSRCState :=
  match srtpSSRCStates c !! id with
  | Some st => st
  | None => newState c id
  end.

Definition deref (p : Z) : M srtpSSRCState :=
  c <- getCtx ;; ret (stateOf c p).

(** The buffer [growBufferSize] returns, [fresh] being the name of the
    storage it allocates when it has to. *)
Definition grow (fresh : nat) (buf : slice) (size : Z) : slice :=
  if size <=? cap buf then mkSlice (base buf) (arr buf) size
  else mkSlice fresh
         (contents buf ++ repeat 0 (Z.to_nat size - length (contents buf)))
         size.

(** Modelled from the spec: [growBufferSize] is not in srtp.go.  It returns a
    buffer of exactly the required length and of capacity at least that,
    on the input's backing storage when its capacity suffices and on fresh
    storage otherwise, keeping the bytes of the shared prefix. *)
Definition growBufferSize (buf : slice) (size : Z) : M slice :=
  emit (EvGrow size) ;;;
  fun w =>
    (Ok (grow (nextBase w) buf size),
     mkWorld (ctx w) (trace w)
       (if size <=? cap buf then nextBase w else S (nextBase w))).

(** ** srtp.go *)

(** [func (c *Context) decryptRTP(dst, ciphertext []byte, header *rtp.Header,
    headerLen int) ([]byte, error)] *)
Definition decryptRTP (dst : slice) (ciphertext : list Z)
    (header : Header) (headerLen : Z) : M slice :=
  c <- getCtx ;;
  authTagLen <- (emit EvAuthTagRTPLen ;;; liftE (AuthTagRTPLen (cipher c))) ;;
  aeadAuthTagLen <- (emit EvAEADAuthTagLen ;;; liftE (AEADAuthTagLen (cipher c))) ;;
  let mkiLen := blen (sendMKI c) in
  if blen ciphertext <? headerLen + aeadAuthTagLen + mkiLen + authTagLen
  then throw (errTooShortRTP (blen ciphertext))
  else
    ssrcState <- getSRTPSSRCState (SSRC header) ;;
    st <- deref ssrcState ;;
    emit (EvNextRolloverCount ssrcState (SequenceNumber header)) ;;;
    let '(roc, diff, _) := nextRolloverCount (seqState st) (SequenceNumber header) in
    let index := packetIndex roc (SequenceNumber header) in
    emit (EvCheck ssrcState index) ;;;
    let '(markAsValid, ok) := Check (replayDetector st) index in
    if negb ok
    then throw (duplicatedError "srtp" (SSRC header) (uint32 (SequenceNumber header)))
    else
      cipher' <-
        (if 0 <? Z.of_nat (size (mkis c))
         then
           emit EvGetMKI ;;;
           let actualMKI := getMKI (cipher c) ciphertext true in
           match mkis c !! actualMKI with
           | Some cph => ret cph
           | None => throw ErrMKINotFound
           end
         else ret (cipher c)) ;;
      dst1 <- growBufferSize dst (blen ciphertext - authTagLen - blen (sendMKI c)) ;;
      emit (EvDecrypt dst1 roc) ;;;
      dst2 <- liftE (cipher_decryptRTP cipher' dst1 ciphertext header headerLen roc) ;;
      emit (EvMarkAsValid ssrcState index) ;;;
      modifyStates (alter (fun s =>
        mkSSRCState (ssrc s) (seqState s) (markAsValid (replayDetector s))) ssrcState) ;;;
      emit (EvUpdateRolloverCount ssrcState (SequenceNumber header) diff) ;;;
      modifyStates (alter (fun s =>
        mkSSRCState (ssrc s)
          (updateRolloverCount (seqState s) (SequenceNumber header) diff)
          (replayDetector s)) ssrcState) ;;;
      ret dst2.

(** [header.Unmarshal(buf)] on the header the entry points work with: the
    caller's, or a new zero header when the pointer is nil. *)
Definition unmarshalInto (header : option Header) (buf : list Z) : M (Header * Z) :=
  let h0 := match header with Some h => h | None => zeroHeader end in
  emit (EvUnmarshal buf) ;;;
  let '(h, r) := Unmarshal h0 buf in
  headerLen <- liftE r ;;
  ret (h, headerLen).

(** [func (c *Context) DecryptRTP(dst, encrypted []byte, header *rtp.Header)
    ([]byte, error)] *)
Definition DecryptRTP (dst : slice) (encrypted : list Z)
    (header : option Header) : M slice :=
  hn <- unmarshalInto header encrypted ;;
  decryptRTP dst encrypted (fst hn) (snd hn).

(** [func (c *Context) encryptRTP(dst []byte, header *rtp.Header,
    payload []byte) (ciphertext []byte, err error)] *)
Definition encryptRTP (dst : slice) (header : Header) (payload : list Z) : M slice :=
  s <- getSRTPSSRCState (SSRC header) ;;
  st <- deref s ;;
  emit (EvNextRolloverCount s (SequenceNumber header)) ;;;
  let '(roc, diff, ovf) := nextRolloverCount (seqState st) (SequenceNumber header) in
  if (ovf : bool)
  then throw errExceededMaxPackets
  else
    emit (EvUpdateRolloverCount s (SequenceNumber header) diff) ;;;
    modifyStates (alter (fun s0 =>
      mkSSRCState (ssrc s0)
        (updateRolloverCount (seqState s0) (SequenceNumber header) diff)
        (replayDetector s0)) s) ;;;
    c <- getCtx ;;
    emit (EvEncrypt payload roc) ;;;
    liftE (cipher_encryptRTP (cipher c) dst header payload roc).

(** [plaintext[headerLen:]]: panics unless [0 <= headerLen <= len(plaintext)]. *)
Definition sliceFrom (b : list Z) (n : Z) : M (list Z) :=
  if (0 <=? n) && (n <=? blen b) then ret (skipn (Z.to_nat n) b) else panic.

(** [func (c *Context) EncryptRTP(dst []byte, plaintext []byte,
    header *rtp.Header) ([]byte, error)] *)
Definition EncryptRTP (dst : slice) (plaintext : list Z)
    (header : option Header) : M slice :=
  hn <- unmarshalInto header plaintext ;;
  payload <- sliceFrom plaintext (snd hn) ;;
  encryptRTP dst (fst hn) payload.

End Orchestrator.

Arguments srtpSSRCState : clear implicits.
Arguments Context : clear implicits.
Arguments World : clear implicits.

(** ** Runs of several packets, and what is observed of a call *)

Section Runs.

Context {Cipher RD Seq : Type}.
Context `{!srtpCipher Cipher, !ReplayDetector RD, !Rollover Seq, !HeaderCodec}.

(** One received packet as [decryptRTP] gets it. *)
Record packet := mkPacket {
  p_dst : slice;
  p_ciphertext : list Z;
  p_header : Header;
  p_headerLen : Z
}.

(** The calls of a session, one after the other on the same context; a
    rejected packet is dropped and the next one is processed. *)
Fixpoint decryptMany (ps : list packet) (w : World Cipher RD Seq)
    : list (result slice) * World Cipher RD Seq :=
  match ps with
  | [] => ([], w)
  | p :: ps' =>
      let '(r, w1) :=
        decryptRTP (p_dst p) (p_ciphertext p) (p_header p) (p_headerLen p) w in
      let '(rs, w2) := decryptMany ps' w1 in
      (r :: rs, w2)
  end.

(** The events a call (or a run) added to the trace. *)
Definition newEvents (w w' : World Cipher RD Seq) : list event :=
  drop (length (trace w)) (trace w').

(** The replay marks among some events: source and index of each packet
    that was accepted. *)
Fixpoint marks (evs : list event) : list (Z * Z) :=
  match evs with
  | [] => []
  | EvMarkAsValid s i :: evs' => (s, i) :: marks evs'
  | _ :: evs' => marks evs'
  end.

(** Commits of per-source state. *)
Definition isCommit (e : event) : bool :=
  match e with
  | EvMarkAsValid _ _ | EvUpdateRolloverCount _ _ _ => true
  | _ => false
  end.

(** Calls into the transform's encrypt or decrypt. *)
Definition isTransform (e : event) : bool :=
  match e with
  | EvDecrypt _ _ | EvEncrypt _ _ => true
  | _ => false
  end.

(** The transform [decryptRTP] settles on: the one registered for the MKI
    found in the packet when MKIs are configured, the context's otherwise. *)
Definition selectCipher (c : Context Cipher RD Seq) (ciphertext : list Z)
    : option Cipher :=
  if 0 <? Z.of_nat (size (mkis c))
  then mkis c !! getMKI (cipher c) ciphertext true
  else Some (cipher c).

(** The rollover estimate for a header in a context. *)
Definition estimate (c : Context Cipher RD Seq) (header : Header) : Z * Z * bool :=
  nextRolloverCount (seqState (stateOf c (SSRC header))) (SequenceNumber header).

(** A world with more events in its trace. *)
Definition logged (w : World Cipher RD Seq) (evs : list event) : World Cipher RD Seq :=
  mkWorld (ctx w) (trace w ++ evs) (nextBase w).

(** The context once the entry of a source is there. *)
Definition ensure (c : Context Cipher RD Seq) (id : Z) : Context Cipher RD Seq :=
  match srtpSSRCStates c !! id with
  | Some _ => c
  | None => withStates c (<[id := newState c id]> (srtpSSRCStates c))
  end.

(** The context once a packet of a source was accepted: the detector ran
    the deferred mark, then the rollover bookkeeping took the update. *)
Definition committed (c : Context Cipher RD Seq) (id : Z) (mark : RD -> RD)
    (seq diff : Z) : Context Cipher RD Seq :=
  withStates c
    (alter (fun s => mkSSRCState (ssrc s)
                       (updateRolloverCount (seqState s) seq diff)
                       (replayDetector s)) id
       (alter (fun s => mkSSRCState (ssrc s) (seqState s)
                          (mark (replayDetector s))) id
          (srtpSSRCStates c))).

(** The events of [decryptRTP] up to the replay query. *)
Definition upToCheck (header : Header) (roc : Z) : list event :=
  [EvAuthTagRTPLen; EvAEADAuthTagLen; EvGetState (SSRC header);
   EvNextRolloverCount (SSRC header) (SequenceNumber header);
   EvCheck (SSRC header) (packetIndex roc (SequenceNumber header))].

(** The key lookup's event, when MKIs are configured. *)
Definition keyLookup (c : Context Cipher RD Seq) : list event :=
  if 0 <? Z.of_nat (size (mkis c)) then [EvGetMKI] else [].

(** The context once the rollover bookkeeping of a source took an update
    (the encrypt side commits nothing else). *)
Definition advanced (c : Context Cipher RD Seq) (id seq diff : Z)
    : Context Cipher RD Seq :=
  withStates c
    (alter (fun s => mkSSRCState (ssrc s)
                       (updateRolloverCount (seqState s) seq diff)
                       (replayDetector s)) id
       (srtpSSRCStates c)).

(** A rollover bookkeeping that differs from a given one in the overflow
    flag of the estimate only. *)
Definition withOverflow (f : Seq -> Z -> bool) : Rollover Seq :=
  {| zeroSeq := zeroSeq;
     nextRolloverCount s q :=
       let '(roc, diff, _) := nextRolloverCount s q in (roc, diff, f s q);
     updateRolloverCount := updateRolloverCount |}.

(** Modelled from the spec: the replay detector is a collaborator outside
    srtp.go.  It tracks which indices have been accepted and rejects
    duplicates: once the deferred mark of an accepted index has run, that
    index is rejected, and an index that is rejected stays rejected when
    further marks run. *)
Class LawfulDetector : Prop := {
  marked_rejected : forall (d : RD) i m,
    Check d i = (m, true) -> snd (Check (m d) i) = false;
  rejected_stays : forall (d : RD) i m j,
    Check d i = (m, true) -> snd (Check d j) = false ->
    snd (Check (m d) j) = false
}.

(** The detector of source [p.1] rejects index [p.2] in this world. *)
Definition rejected (w : World Cipher RD Seq) (p : Z * Z) : Prop :=
  snd (Check (replayDetector (stateOf (ctx w) (fst p))) (snd p)) = false.

(** The header an entry point works on: the caller's, or a new zero header
    for a nil pointer. *)
Definition headerOr (header : option Header) : Header :=
  match header with Some h => h | None => zeroHeader end.

(** A transform interface with the given tag lengths, MKI extraction and
    encrypt, and the decrypt of the one at hand. *)
Definition cipherWith (f g : Cipher -> string + Z)
    (m : Cipher -> list Z -> bool -> list Z)
    (e : Cipher -> slice -> Header -> list Z -> Z -> string + slice)
    : srtpCipher Cipher :=
  {| AuthTagRTPLen := f;
     AEADAuthTagLen := g;
     getMKI := m;
     cipher_encryptRTP := e;
     cipher_decryptRTP := cipher_decryptRTP |}.

(** The seven ways through [decryptRTP], each with the collaborator answers
    that select it, the value returned and the world left behind. *)
Inductive decryptPath (w : World Cipher RD Seq) (dst : slice) (ct : list Z)
    (header : Header) (headerLen : Z)
    : result slice -> World Cipher RD Seq -> Prop :=
| PathAuthTagLen msg :
    AuthTagRTPLen (cipher (ctx w)) = inl msg ->
    decryptPath w dst ct header headerLen
      (Err (errForeign msg)) (logged w [EvAuthTagRTPLen])
| PathAeadTagLen a msg :
    AuthTagRTPLen (cipher (ctx w)) = inr a ->
    AEADAuthTagLen (cipher (ctx w)) = inl msg ->
    decryptPath w dst ct header headerLen
      (Err (errForeign msg)) (logged w [EvAuthTagRTPLen; EvAEADAuthTagLen])
| PathTooShort a b :
    AuthTagRTPLen (cipher (ctx w)) = inr a ->
    AEADAuthTagLen (cipher (ctx w)) = inr b ->
    blen ct < headerLen + b + blen (sendMKI (ctx w)) + a ->
    decryptPath w dst ct header headerLen
      (Err (errTooShortRTP (blen ct)))
      (logged w [EvAuthTagRTPLen; EvAEADAuthTagLen])
| PathDuplicate a b roc diff ovf mark :
    AuthTagRTPLen (cipher (ctx w)) = inr a ->
    AEADAuthTagLen (cipher (ctx w)) = inr b ->
    headerLen + b + blen (sendMKI (ctx w)) + a <= blen ct ->
    estimate (ctx w) header = (roc, diff, ovf) ->
    Check (replayDetector (stateOf (ctx w) (SSRC header)))
          (packetIndex roc (SequenceNumber header)) = (mark, false) ->
    decryptPath w dst ct header headerLen
      (Err (duplicatedError "srtp" (SSRC header) (uint32 (SequenceNumber header))))
      (mkWorld (ensure (ctx w) (SSRC header))
         (trace w ++ upToCheck header roc) (nextBase w))
| PathKeyMissing a b roc diff ovf mark :
    AuthTagRTPLen (cipher (ctx w)) = inr a ->
    AEADAuthTagLen (cipher (ctx w)) = inr b ->
    headerLen + b + blen (sendMKI (ctx w)) + a <= blen ct ->
    estimate (ctx w) header = (roc, diff, ovf) ->
    Check (replayDetector (stateOf (ctx w) (SSRC header)))
          (packetIndex roc (SequenceNumber header)) = (mark, true) ->
    selectCipher (ctx w) ct = None ->
    decryptPath w dst ct header headerLen
      (Err ErrMKINotFound)
      (mkWorld (ensure (ctx w) (SSRC header))
         (trace w ++ upToCheck header roc ++ [EvGetMKI]) (nextBase w))
| PathTransformFails a b roc diff ovf mark cph msg :
    AuthTagRTPLen (cipher (ctx w)) = inr a ->
    AEADAuthTagLen (cipher (ctx w)) = inr b ->
    headerLen + b + blen (sendMKI (ctx w)) + a <= blen ct ->
    estimate (ctx w) header = (roc, diff, ovf) ->
    Check (replayDetector (stateOf (ctx w) (SSRC header)))
          (packetIndex roc (SequenceNumber header)) = (mark, true) ->
    selectCipher (ctx w) ct = Some cph ->
    let need := blen ct - a - blen (sendMKI (ctx w)) in
    let d := grow (nextBase w) dst need in
    cipher_decryptRTP cph d ct header headerLen roc = inl msg ->
    decryptPath w dst ct header headerLen
      (Err (errForeign msg))
      (mkWorld (ensure (ctx w) (SSRC header))
         (trace w ++ upToCheck header roc ++ keyLookup (ctx w)
            ++ [EvGrow need; EvDecrypt d roc])
         (if need <=? cap dst then nextBase w else S (nextBase w)))
| PathAccepted a b roc diff ovf mark cph out :
    AuthTagRTPLen (cipher (ctx w)) = inr a ->
    AEADAuthTagLen (cipher (ctx w)) = inr b ->
    headerLen + b + blen (sendMKI (ctx w)) + a <= blen ct ->
    estimate (ctx w) header = (roc, diff, ovf) ->
    Check (replayDetector (stateOf (ctx w) (SSRC header)))
          (packetIndex roc (SequenceNumber header)) = (mark, true) ->
    selectCipher (ctx w) ct = Some cph ->
    let need := blen ct - a - blen (sendMKI (ctx w)) in
    let d := grow (nextBase w) dst need in
    cipher_decryptRTP cph d ct header headerLen roc = inr out ->
    decryptPath w dst ct header headerLen
      (Ok out)
      (mkWorld
         (committed (ensure (ctx w) (SSRC header)) (SSRC header) mark
            (SequenceNumber header) diff)
         (trace w ++ upToCheck header roc ++ keyLookup (ctx w)
            ++ [EvGrow need; EvDecrypt d roc;
                EvMarkAsValid (SSRC header)
                  (packetIndex roc (SequenceNumber header));
                EvUpdateRolloverCount (SSRC header) (SequenceNumber header) diff])
         (if need <=? cap dst then nextBase w else S (nextBase w))).

End Runs.

(** ** A small instantiation of the collaborators

    Used to run the orchestrator on concrete packets. *)

Module Sample.

(** Modelled from the spec: the Sequence State and the Rollover
    Reconstruction of section 4.1 (the package's own are not in srtp.go).
    [highestSequence] is [None] until the first packet of the source. *)
Record sequenceState := mkSeq {
  rolloverCounter : Z;
  highestSequence : option Z
}.

Definition maxROC : Z := 2 ^ 32 - 1.
Definition lowerQuarter (s : Z) : bool := s <? 16384.
Definition upperQuarter (s : Z) : bool := 49152 <=? s.

Definition nextRoc (st : sequenceState) (s : Z) : Z * Z * bool :=
  match highestSequence st with
  | None => (0, 0, false)
  | Some h =>
      if upperQuarter h && lowerQuarter s then
        if rolloverCounter st =? maxROC
        then (uint32 (rolloverCounter st + 1), 1, true)
        else (rolloverCounter st + 1, 1, false)
      else if lowerQuarter h && upperQuarter s then
        if rolloverCounter st =? 0
        then (rolloverCounter st, 0, false)
        else (rolloverCounter st - 1, -1, false)
      else (rolloverCounter st, 0, false)
  end.

Definition updateRoc (st : sequenceState) (s diff : Z) : sequenceState :=
  match highestSequence st with
  | None => mkSeq (rolloverCounter st) (Some s)
  | Some h =>
      if 0 <? diff then mkSeq (rolloverCounter st + diff) (Some s)
      else if diff <? 0 then st
      else mkSeq (rolloverCounter st) (Some (Z.max h s))
  end.

#[export] Instance sampleRollover : Rollover sequenceState :=
  {| zeroSeq := mkSeq 0 None;
     nextRolloverCount := nextRoc;
     updateRolloverCount := updateRoc |}.

(** A replay detector that remembers every accepted index. *)
Definition memIndex (i : Z) (d : list Z) : bool := existsb (Z.eqb i) d.

#[export] Instance listDetector : ReplayDetector (list Z) :=
  {| Check d i := (fun d' => i :: d', negb (memIndex i d)) |}.

(** A header codec for the twelve-byte fixed header of RFC 3550 (no CSRC
    list, no extension). *)
Definition be (bs : list Z) : Z := fold_left (fun a b => a * 256 + b) bs 0.

Definition parseHeader (h0 : Header) (buf : list Z) : Header * (string + Z) :=
  match buf with
  | b0 :: b1 :: s1 :: s0 :: t3 :: t2 :: t1 :: t0 :: c3 :: c2 :: c1 :: c0 :: _ =>
      (mkHeader (Z.shiftr b0 6) (Z.testbit b0 5) (Z.testbit b0 4)
                (Z.testbit b1 7) (Z.land b1 127)
                (be [s1; s0]) (be [t3; t2; t1; t0]) (be [c3; c2; c1; c0]) [],
       inr 12)
  | _ => (h0, inl "RTP header size insufficient"%string)
  end.

#[export] Instance sampleCodec : HeaderCodec := {| Unmarshal := parseHeader |}.

(** A transform with the wire layout of SRTP: header, payload combined with
    a key stream, MKI, authentication tag.  The key stream and the tag
    depend on the key and on the packet index (rollover count and sequence
    number), so a wrong rollover count fails authentication. *)
Record toyCipher := mkToy {
  key : Z;
  mki : list Z;
  tagLen : nat
}.

Definition keyByte (c : toyCipher) (h : Header) (roc : Z) : Z :=
  (key c + roc + SequenceNumber h) mod 256.

Definition toyTag (c : toyCipher) (h : Header) (roc : Z) : list Z :=
  repeat (keyByte c h roc) (tagLen c).

Definition toyEncrypt (c : toyCipher) (dst : slice) (h : Header)
    (payload : list Z) (roc : Z) : string + slice :=
  let out := [Z.shiftl (Version h) 6; PayloadType h;
              SequenceNumber h / 256; SequenceNumber h mod 256;
              Timestamp h / 16777216; Timestamp h / 65536 mod 256;
              Timestamp h / 256 mod 256; Timestamp h mod 256;
              SSRC h / 16777216; SSRC h / 65536 mod 256;
              SSRC h / 256 mod 256; SSRC h mod 256]
             ++ map (Z.lxor (keyByte c h roc)) payload
             ++ mki c ++ toyTag c h roc in
  inr (mkSlice (base dst) out (blen out)).

Definition toyDecrypt (c : toyCipher) (dst : slice) (ct : list Z) (h : Header)
    (headerLen roc : Z) : string + slice :=
  let n := (length ct - tagLen c - length (mki c))%nat in
  let body := firstn n ct in
  let tag := skipn (length ct - tagLen c)%nat ct in
  if bool_decide (tag = toyTag c h roc) then
    let out := firstn (Z.to_nat headerLen) body
               ++ map (Z.lxor (keyByte c h roc)) (skipn (Z.to_nat headerLen) body) in
    inr (mkSlice (base dst) out (blen out))
  else inl "failed to verify auth tag"%string.

#[export] Instance toySrtpCipher : srtpCipher toyCipher :=
  {| AuthTagRTPLen c := inr (Z.of_nat (tagLen c));
     AEADAuthTagLen _ := inr 0;
     getMKI c ct _ :=
       firstn (length (mki c))
         (skipn (length ct - tagLen c - length (mki c))%nat ct);
     cipher_encryptRTP := toyEncrypt;
     cipher_decryptRTP := toyDecrypt |}.

Definition sampleCipher : toyCipher := mkToy 7 [] 2.

(** A context with one key and no MKI, before any packet. *)
Definition freshCtx : Context toyCipher (list Z) sequenceState :=
  mkContext sampleCipher [] ∅ ∅ [].

Definition freshWorld : World toyCipher (list Z) sequenceState :=
  mkWorld freshCtx [] 1.

(** A packet: twelve header bytes for sequence number [s] and SSRC 1, then
    the payload. *)
Definition rtpPacket (s : Z) (payload : list Z) : list Z :=
  [128; 96; s / 256; s mod 256; 0; 0; 0; 0; 0; 0; 0; 1] ++ payload.

(** The header that such a packet parses to. *)
Definition hdr (s : Z) : Header := mkHeader 2 false false false 96 s 0 1 [].

(** The receiver after the packets 65535 and 5 of source 1: the sequence
    number wrapped once, both indices are marked. *)
Definition wrappedWorld : World toyCipher (list Z) sequenceState :=
  mkWorld
    (mkContext sampleCipher [] ∅
       {[ 1 := mkSSRCState 1 (mkSeq 1 (Some 5)) [65541; 65535] ]} [])
    [] 1.

(** A sender whose rollover count is at the ceiling and whose last sequence
    number is the highest one. *)
Definition exhaustedWorld : World toyCipher (list Z) sequenceState :=
  mkWorld
    (mkContext sampleCipher [] ∅
       {[ 1 := mkSSRCState 1 (mkSeq maxROC (Some 65535)) [] ]} [])
    [] 1.

(** Two keys with one-byte MKIs; the context sends under MKI 9. *)
Definition cipher9 : toyCipher := mkToy 7 [9] 2.
Definition cipher8 : toyCipher := mkToy 11 [8] 2.

Definition mkiWorld : World toyCipher (list Z) sequenceState :=
  mkWorld
    (mkContext cipher9 [9] {[ [9] := cipher9; [8] := cipher8 ]} ∅ [])
    [] 1.

(** A context whose transform looks for a two-byte MKI in the packet while
    the send MKI has one byte. *)
Definition cipher77 : toyCipher := mkToy 7 [7; 7] 2.

Definition unevenWorld : World toyCipher (list Z) sequenceState :=
  mkWorld (mkContext cipher77 [9] {[ [7; 7] := cipher77 ]} ∅ []) [] 1.

(** The bytes a transform puts on the wire for a packet. *)
Definition wire (c : toyCipher) (s roc : Z) (payload : list Z) : list Z :=
  match toyEncrypt c nilSlice (hdr s) payload roc with
  | inr out => contents out
  | inl _ => []
  end.

(** The header of a packet of source 2. *)
Definition hdr2 (s : Z) : Header := mkHeader 2 false false false 96 s 0 2 [].

(** The toy transform with an encrypt that fails. *)
Definition brokenEncrypt : srtpCipher toyCipher :=
  cipherWith AuthTagRTPLen AEADAuthTagLen getMKI
    (fun _ _ _ _ _ => inl "encrypt failed"%string).

(** The toy transform where only ciphers with key 7 tell their tag lengths
    and find an MKI, and where nothing encrypts. *)
Definition onlyKey7 : srtpCipher toyCipher :=
  cipherWith
    (fun c => if key c =? 7 then AuthTagRTPLen c
              else inl "unknown profile"%string)
    (fun c => if key c =? 7 then AEADAuthTagLen c
              else inl "unknown profile"%string)
    (fun c ct r => if key c =? 7 then getMKI c ct r else [])
    (fun _ _ _ _ _ => inl "encrypt failed"%string).

End Sample.

(** * Properties of the orchestrator *)

Section Properties.

Context {Cipher RD Seq : Type}.
Context `{!srtpCipher Cipher, !ReplayDetector RD, !Rollover Seq, !HeaderCodec}.

Local Abbreviation World := (World Cipher RD Seq).
Local Abbreviation Context := (Context Cipher RD Seq).

Implicit Types (w : World) (c : Context) (dst : slice) (ct : list Z)
  (header : Header) (headerLen : Z).

(** ** Reading the registry *)

Lemma stateOf_ensure c id id' : stateOf (ensure c id) id' = stateOf c id'.
Proof.
  unfold ensure. destruct (srtpSSRCStates c !! id) eqn:Hid; [reflexivity|].
  unfold stateOf; simpl.
  destruct (decide (id = id')) as [->|Hne].
  - rewrite lookup_insert_eq, Hid. reflexivity.
  - rewrite lookup_insert_ne by assumption. reflexivity.
Qed.

Lemma lookup_ensure c id :
  srtpSSRCStates (ensure c id) !! id = Some (stateOf c id).
Proof.
  unfold ensure, stateOf.
  destruct (srtpSSRCStates c !! id) eqn:Hid; simpl; [assumption|].
  apply lookup_insert_eq.
Qed.

Lemma ensure_config c id :
  cipher (ensure c id) = cipher c /\ sendMKI (ensure c id) = sendMKI c
  /\ mkis (ensure c id) = mkis c
  /\ newSRTPReplayDetector (ensure c id) = newSRTPReplayDetector c.
Proof. unfold ensure. destruct (srtpSSRCStates c !! id); simpl; auto. Qed.

Lemma getSRTPSSRCState_run w id :
  getSRTPSSRCState id w
  = (Ok id, mkWorld (ensure (ctx w) id) (trace w ++ [EvGetState id]) (nextBase w)).
Proof.
  unfold getSRTPSSRCState, ensure, bind, emit, getCtx, modifyStates, ret; simpl.
  destruct (srtpSSRCStates (ctx w) !! id); reflexivity.
Qed.

(** The state of a source after its packet was accepted, and of the others. *)
Lemma stateOf_committed_same c id mark seq diff :
  stateOf (committed (ensure c id) id mark seq diff) id
  = mkSSRCState (ssrc (stateOf c id))
      (updateRolloverCount (seqState (stateOf c id)) seq diff)
      (mark (replayDetector (stateOf c id))).
Proof.
  unfold stateOf at 1, committed; simpl.
  rewrite !lookup_alter_eq, lookup_ensure. reflexivity.
Qed.

Lemma stateOf_committed_other c id id' mark seq diff :
  id <> id' ->
  stateOf (committed (ensure c id) id mark seq diff) id' = stateOf c id'.
Proof.
  intros Hne. rewrite <- (stateOf_ensure c id id').
  unfold stateOf, committed; simpl.
  rewrite !lookup_alter_ne by assumption. reflexivity.
Qed.

(** ** The paths of [decryptRTP] *)

Local Arguments getSRTPSSRCState : simpl never.

Ltac run_call :=
  unfold decryptRTP, encryptRTP, bind, getCtx, emit, liftE, ret, throw, deref,
    modifyStates, growBufferSize, logged; simpl;
  repeat (rewrite getSRTPSSRCState_run; simpl).

Lemma decryptRTP_authTagLen_fails w dst ct header headerLen msg :
  AuthTagRTPLen (cipher (ctx w)) = inl msg ->
  decryptRTP dst ct header headerLen w
  = (Err (errForeign msg), logged w [EvAuthTagRTPLen]).
Proof. intros Ha. run_call. rewrite Ha. reflexivity. Qed.

Lemma decryptRTP_aeadTagLen_fails w dst ct header headerLen a msg :
  AuthTagRTPLen (cipher (ctx w)) = inr a ->
  AEADAuthTagLen (cipher (ctx w)) = inl msg ->
  decryptRTP dst ct header headerLen w
  = (Err (errForeign msg), logged w [EvAuthTagRTPLen; EvAEADAuthTagLen]).
Proof.
  intros Ha Hb. run_call. rewrite Ha; simpl. rewrite Hb; simpl.
  rewrite <- app_assoc. reflexivity.
Qed.

Lemma decryptRTP_length_fails w dst ct header headerLen (a b : Z) :
  AuthTagRTPLen (cipher (ctx w)) = inr a ->
  AEADAuthTagLen (cipher (ctx w)) = inr b ->
  blen ct < headerLen + b + blen (sendMKI (ctx w)) + a ->
  decryptRTP dst ct header headerLen w
  = (Err (errTooShortRTP (blen ct)),
     logged w [EvAuthTagRTPLen; EvAEADAuthTagLen]).
Proof.
  intros Ha Hb Hlt. run_call.
  rewrite Ha; simpl. rewrite Hb; simpl.
  apply Z.ltb_lt in Hlt. rewrite Hlt.
  rewrite <- app_assoc. reflexivity.
Qed.

Section PastLengthCheck.

Variables (w : World) (dst : slice) (ct : list Z) (header : Header)
  (headerLen a b roc diff : Z) (ovf ok : bool) (mark : RD -> RD).

Hypothesis Ha : AuthTagRTPLen (cipher (ctx w)) = inr a.
Hypothesis Hb : AEADAuthTagLen (cipher (ctx w)) = inr b.
Hypothesis Hlen : headerLen + b + blen (sendMKI (ctx w)) + a <= blen ct.
Hypothesis Hest : estimate (ctx w) header = (roc, diff, ovf).
Hypothesis Hchk :
  Check (replayDetector (stateOf (ctx w) (SSRC header)))
        (packetIndex roc (SequenceNumber header)) = (mark, ok).

Let need := blen ct - a - blen (sendMKI (ctx w)).
Let nb := if need <=? cap dst then nextBase w else S (nextBase w).
Let d := grow (nextBase w) dst need.

Lemma decryptRTP_duplicate :
  ok = false ->
  decryptRTP dst ct header headerLen w
  = (Err (duplicatedError "srtp" (SSRC header) (uint32 (SequenceNumber header))),
     mkWorld (ensure (ctx w) (SSRC header))
       (trace w ++ upToCheck header roc) (nextBase w)).
Proof.
  intros ->. run_call.
  rewrite Ha; simpl. rewrite Hb; simpl.
  apply Z.ltb_ge in Hlen. rewrite Hlen. run_call.
  rewrite stateOf_ensure. unfold estimate in Hest. rewrite Hest; simpl.
  rewrite Hchk; simpl.
  unfold upToCheck. rewrite <- !app_assoc. reflexivity.
Qed.

Lemma decryptRTP_key_missing :
  ok = true ->
  selectCipher (ctx w) ct = None ->
  decryptRTP dst ct header headerLen w
  = (Err ErrMKINotFound,
     mkWorld (ensure (ctx w) (SSRC header))
       (trace w ++ upToCheck header roc ++ [EvGetMKI]) (nextBase w)).
Proof.
  intros -> Hsel. run_call.
  rewrite Ha; simpl. rewrite Hb; simpl.
  apply Z.ltb_ge in Hlen. rewrite Hlen. run_call.
  rewrite stateOf_ensure. unfold estimate in Hest. rewrite Hest; simpl.
  rewrite Hchk; simpl.
  unfold selectCipher in Hsel.
  destruct (0 <? Z.of_nat (size (mkis (ctx w)))); [|discriminate].
  rewrite Hsel; simpl.
  unfold upToCheck. rewrite <- !app_assoc. reflexivity.
Qed.

Lemma decryptRTP_transform_fails cph msg :
  ok = true ->
  selectCipher (ctx w) ct = Some cph ->
  cipher_decryptRTP cph d ct header headerLen roc = inl msg ->
  decryptRTP dst ct header headerLen w
  = (Err (errForeign msg),
     mkWorld (ensure (ctx w) (SSRC header))
       (trace w ++ upToCheck header roc ++ keyLookup (ctx w)
          ++ [EvGrow need; EvDecrypt d roc]) nb).
Proof.
  intros -> Hsel Hdec. run_call.
  rewrite Ha; simpl. rewrite Hb; simpl.
  apply Z.ltb_ge in Hlen. rewrite Hlen. run_call.
  rewrite stateOf_ensure. unfold estimate in Hest. rewrite Hest; simpl.
  rewrite Hchk; simpl.
  unfold selectCipher in Hsel. unfold keyLookup.
  destruct (0 <? Z.of_nat (size (mkis (ctx w)))).
  - rewrite Hsel; simpl. fold need. fold d. rewrite Hdec; simpl.
    unfold upToCheck. rewrite <- !app_assoc. reflexivity.
  - injection Hsel as <-. simpl. fold need. fold d. rewrite Hdec; simpl.
    unfold upToCheck. rewrite <- !app_assoc. reflexivity.
Qed.

Lemma decryptRTP_success cph out :
  ok = true ->
  selectCipher (ctx w) ct = Some cph ->
  cipher_decryptRTP cph d ct header headerLen roc = inr out ->
  decryptRTP dst ct header headerLen w
  = (Ok out,
     mkWorld
       (committed (ensure (ctx w) (SSRC header)) (SSRC header) mark
          (SequenceNumber header) diff)
       (trace w ++ upToCheck header roc ++ keyLookup (ctx w)
          ++ [EvGrow need; EvDecrypt d roc;
              EvMarkAsValid (SSRC header) (packetIndex roc (SequenceNumber header));
              EvUpdateRolloverCount (SSRC header) (SequenceNumber header) diff])
       nb).
Proof.
  intros -> Hsel Hdec. run_call.
  rewrite Ha; simpl. rewrite Hb; simpl.
  apply Z.ltb_ge in Hlen. rewrite Hlen. run_call.
  rewrite stateOf_ensure. unfold estimate in Hest. rewrite Hest; simpl.
  rewrite Hchk; simpl.
  unfold selectCipher in Hsel. unfold keyLookup.
  destruct (0 <? Z.of_nat (size (mkis (ctx w)))).
  - rewrite Hsel; simpl. fold need. fold d. rewrite Hdec; simpl.
    unfold upToCheck, committed, withStates; simpl.
    rewrite <- !app_assoc. reflexivity.
  - injection Hsel as <-. simpl. fold need. fold d. rewrite Hdec; simpl.
    unfold upToCheck, committed, withStates; simpl.
    rewrite <- !app_assoc. reflexivity.
Qed.

End PastLengthCheck.

(** Every call of [decryptRTP] takes one of the seven paths. *)
Lemma decryptRTP_path w dst ct header headerLen :
  decryptPath w dst ct header headerLen
    (fst (decryptRTP dst ct header headerLen w))
    (snd (decryptRTP dst ct header headerLen w)).
Proof.
  destruct (AuthTagRTPLen (cipher (ctx w))) as [m1|a] eqn:Ha.
  { rewrite (decryptRTP_authTagLen_fails _ _ _ _ _ _ Ha). simpl. eapply PathAuthTagLen; eassumption. }
  destruct (AEADAuthTagLen (cipher (ctx w))) as [m2|b] eqn:Hb.
  { rewrite (decryptRTP_aeadTagLen_fails _ _ _ _ _ _ _ Ha Hb). simpl. eapply PathAeadTagLen; eassumption. }
  destruct (Z.lt_ge_cases (blen ct) (headerLen + b + blen (sendMKI (ctx w)) + a))
    as [Hlt|Hge].
  { rewrite (decryptRTP_length_fails _ _ _ _ _ _ _ Ha Hb Hlt). simpl. eapply PathTooShort; eassumption. }
  destruct (estimate (ctx w) header) as [[roc diff] ovf] eqn:Hest.
  destruct (Check (replayDetector (stateOf (ctx w) (SSRC header)))
              (packetIndex roc (SequenceNumber header))) as [mark ok] eqn:Hchk.
  destruct ok.
  2:{ rewrite (decryptRTP_duplicate _ dst _ _ _ _ _ _ _ _ _ _ Ha Hb Hge Hest Hchk eq_refl).
      simpl. eapply PathDuplicate; eassumption. }
  destruct (selectCipher (ctx w) ct) as [cph|] eqn:Hsel.
  2:{ rewrite (decryptRTP_key_missing _ dst _ _ _ _ _ _ _ _ _ _ Ha Hb Hge Hest Hchk
                 eq_refl Hsel).
      simpl. eapply PathKeyMissing; eassumption. }
  destruct (cipher_decryptRTP cph
              (grow (nextBase w) dst (blen ct - a - blen (sendMKI (ctx w))))
              ct header headerLen roc) as [msg|out] eqn:Hdec.
  - rewrite (decryptRTP_transform_fails _ dst _ _ _ _ _ _ _ _ _ _ Ha Hb Hge Hest Hchk
               _ _ eq_refl Hsel Hdec).
    simpl. eapply PathTransformFails; eassumption.
  - rewrite (decryptRTP_success _ dst _ _ _ _ _ _ _ _ _ _ Ha Hb Hge Hest Hchk
               _ _ eq_refl Hsel Hdec).
    simpl. eapply PathAccepted; eassumption.
Qed.

Lemma newEvents_app w w' evs :
  trace w' = trace w ++ evs -> newEvents w w' = evs.
Proof. intros E. unfold newEvents. rewrite E. apply drop_app_length. Qed.

Ltac path_cases w dst ct header headerLen :=
  let Hp := fresh "Hp" in
  pose proof (decryptRTP_path w dst ct header headerLen) as Hp;
  destruct (decryptRTP dst ct header headerLen w) as [r w'];
  simpl in Hp |- *; destruct Hp; simpl.

Ltac no_commit :=
  unfold upToCheck, keyLookup;
  try match goal with |- context [0 <? ?x] => destruct (0 <? x) end;
  simpl; repeat constructor.

(** A call only adds to the trace. *)
Lemma decryptRTP_trace w dst ct header headerLen :
  exists evs,
    trace (snd (decryptRTP dst ct header headerLen w)) = trace w ++ evs.
Proof.
  path_cases w dst ct header headerLen; eexists; reflexivity.
Qed.

(** ** The length check *)

(** C5. A ciphertext shorter than header length + AEAD tag length + length
    of the send MKI + authentication tag length is rejected with the
    too-short error carrying its length; up to then only the two tag lengths
    were asked of the transform: no state was resolved, no replay query, key
    lookup, buffer growth or transform call was made, and the context is as
    it was. *)
Theorem decryptRTP_too_short w dst ct header headerLen (a b : Z) :
  AuthTagRTPLen (cipher (ctx w)) = inr a ->
  AEADAuthTagLen (cipher (ctx w)) = inr b ->
  blen ct < headerLen + b + blen (sendMKI (ctx w)) + a ->
  fst (decryptRTP dst ct header headerLen w) = Err (errTooShortRTP (blen ct))
  /\ newEvents w (snd (decryptRTP dst ct header headerLen w))
     = [EvAuthTagRTPLen; EvAEADAuthTagLen]
  /\ ctx (snd (decryptRTP dst ct header headerLen w)) = ctx w
  /\ nextBase (snd (decryptRTP dst ct header headerLen w)) = nextBase w.
Proof.
  intros Ha Hb Hlt.
  rewrite (decryptRTP_length_fails _ dst _ header _ _ _ Ha Hb Hlt); simpl.
  repeat split. apply newEvents_app. reflexivity.
Qed.

(** ** Commit after success *)

(** C1. A call of [decryptRTP] that does not return a packet leaves the
    Sequence State and the replay detector of every source as they were and
    commits nothing; a call that returns a packet ends with the transform's
    decrypt, which succeeded, then the replay mark, then the rollover
    update, and commits nothing before. *)
Theorem decryptRTP_atomic w dst ct header headerLen :
  exists evs,
    trace (snd (decryptRTP dst ct header headerLen w)) = trace w ++ evs
    /\ match fst (decryptRTP dst ct header headerLen w) with
       | Ok out =>
           exists pre d roc index diff cph,
             evs = pre ++ [EvDecrypt d roc;
                           EvMarkAsValid (SSRC header) index;
                           EvUpdateRolloverCount (SSRC header)
                             (SequenceNumber header) diff]
             /\ Forall (fun e => isCommit e = false) pre
             /\ cipher_decryptRTP cph d ct header headerLen roc = inr out
       | _ =>
           (forall id,
              stateOf (ctx (snd (decryptRTP dst ct header headerLen w))) id
              = stateOf (ctx w) id)
           /\ Forall (fun e => isCommit e = false) evs
       end.
Proof.
  path_cases w dst ct header headerLen.
  - eexists; split; [reflexivity|]. split; [reflexivity|no_commit].
  - eexists; split; [reflexivity|]. split; [reflexivity|no_commit].
  - eexists; split; [reflexivity|]. split; [reflexivity|no_commit].
  - eexists; split; [reflexivity|].
    split; [intros id; apply stateOf_ensure|no_commit].
  - eexists; split; [reflexivity|].
    split; [intros id; apply stateOf_ensure|no_commit].
  - eexists; split; [reflexivity|].
    split; [intros id; apply stateOf_ensure|no_commit].
  - eexists; split; [reflexivity|].
    exists (upToCheck header roc ++ keyLookup (ctx w) ++ [EvGrow need]),
      d, roc, (packetIndex roc (SequenceNumber header)), diff, cph.
    split; [rewrite <- !app_assoc; reflexivity|].
    split; [no_commit|assumption].
Qed.

(** ** The packet budget on the encrypt side *)

Lemma encryptRTP_run w dst header payload roc diff ovf :
  estimate (ctx w) header = (roc, diff, ovf) ->
  encryptRTP dst header payload w
  = if ovf
    then (Err errExceededMaxPackets,
          mkWorld (ensure (ctx w) (SSRC header))
            (trace w ++ [EvGetState (SSRC header);
                         EvNextRolloverCount (SSRC header) (SequenceNumber header)])
            (nextBase w))
    else (match cipher_encryptRTP (cipher (ctx w)) dst header payload roc with
          | inl msg => Err (errForeign msg)
          | inr out => Ok out
          end,
          mkWorld (advanced (ensure (ctx w) (SSRC header)) (SSRC header)
                     (SequenceNumber header) diff)
            (trace w ++ [EvGetState (SSRC header);
                         EvNextRolloverCount (SSRC header) (SequenceNumber header);
                         EvUpdateRolloverCount (SSRC header) (SequenceNumber header) diff;
                         EvEncrypt payload roc])
            (nextBase w)).
Proof.
  intros Hest. run_call.
  rewrite stateOf_ensure. unfold estimate in Hest. rewrite Hest; simpl.
  destruct ovf; simpl.
  - rewrite <- !app_assoc. reflexivity.
  - destruct (ensure_config (ctx w) (SSRC header)) as (-> & _).
    rewrite <- !app_assoc; simpl.
    destruct (cipher_encryptRTP _ _ _ _ _); reflexivity.
Qed.

(** C3. When the rollover estimate reports overflow, [encryptRTP] fails
    with the exceeded-maximum-packets error and does nothing further: the
    trace shows the state lookup and the estimate only (no rollover update,
    no call of the transform), and the Sequence State and replay detector of
    every source are as they were. *)
Theorem encryptRTP_budget w dst header payload roc diff :
  estimate (ctx w) header = (roc, diff, true) ->
  fst (encryptRTP dst header payload w) = Err errExceededMaxPackets
  /\ newEvents w (snd (encryptRTP dst header payload w))
     = [EvGetState (SSRC header);
        EvNextRolloverCount (SSRC header) (SequenceNumber header)]
  /\ (forall id, stateOf (ctx (snd (encryptRTP dst header payload w))) id
                 = stateOf (ctx w) id)
  /\ Forall (fun e => isCommit e = false /\ isTransform e = false)
       (newEvents w (snd (encryptRTP dst header payload w))).
Proof.
  intros Hest. rewrite (encryptRTP_run _ _ _ _ _ _ _ Hest); simpl.
  erewrite newEvents_app by (simpl; reflexivity).
  repeat split; try (intros id; apply stateOf_ensure).
  repeat constructor.
Qed.

(** ** The duplicate-packet error *)

(** C4 (as the code has it). When the replay detector rejects the
    reconstructed index, [decryptRTP] fails with a duplicate-packet error
    naming the protocol "srtp", the SSRC and, as its index, the 16-bit wire
    sequence number of the packet (converted to 32 bits), not the
    reconstructed 48-bit index; the states of all sources are as they were
    and the trace ends with the replay query: no key lookup, no buffer
    growth, no decryption, no commit. *)
Theorem decryptRTP_duplicate_error w dst ct header headerLen a b roc diff ovf mark :
  AuthTagRTPLen (cipher (ctx w)) = inr a ->
  AEADAuthTagLen (cipher (ctx w)) = inr b ->
  headerLen + b + blen (sendMKI (ctx w)) + a <= blen ct ->
  estimate (ctx w) header = (roc, diff, ovf) ->
  Check (replayDetector (stateOf (ctx w) (SSRC header)))
        (packetIndex roc (SequenceNumber header)) = (mark, false) ->
  fst (decryptRTP dst ct header headerLen w)
  = Err (duplicatedError "srtp" (SSRC header) (uint32 (SequenceNumber header)))
  /\ newEvents w (snd (decryptRTP dst ct header headerLen w))
     = upToCheck header roc
  /\ (forall id, stateOf (ctx (snd (decryptRTP dst ct header headerLen w))) id
                 = stateOf (ctx w) id)
  /\ (0 <= SequenceNumber header < 2 ^ 16 ->
      uint32 (SequenceNumber header) = SequenceNumber header).
Proof.
  intros Ha Hb Hlen Hest Hchk.
  rewrite (decryptRTP_duplicate _ dst _ _ _ _ _ _ _ _ _ _ Ha Hb Hlen Hest Hchk eq_refl).
  simpl. erewrite newEvents_app by (simpl; reflexivity).
  repeat split; try (intros id; apply stateOf_ensure).
  intros Hr. unfold uint32. apply Z.mod_small. lia.
Qed.

(** ** The destination buffer *)

Lemma grow_sizing fresh buf need :
  len (grow fresh buf need) = need
  /\ need <= cap (grow fresh buf need)
  /\ (need <= cap buf ->
      base (grow fresh buf need) = base buf /\ arr (grow fresh buf need) = arr buf)
  /\ (cap buf < need -> base (grow fresh buf need) = fresh).
Proof.
  unfold grow. destruct (need <=? cap buf) eqn:E.
  - apply Z.leb_le in E. simpl. repeat split; auto; lia.
  - apply Z.leb_gt in E. simpl. repeat split; try lia.
    unfold cap in *; simpl. rewrite length_app, repeat_length.
    assert (length (contents buf) <= length (arr buf))%nat.
    { unfold contents. rewrite length_take. lia. }
    lia.
Qed.

(** C7. Whenever [decryptRTP] calls the transform's decrypt, the buffer it
    hands over is the caller's buffer grown, immediately before, to length
    exactly len(ciphertext) - authTagLen - len(sendMKI), with capacity at
    least that; it sits on the caller's backing storage when that has the
    capacity and on new storage otherwise. *)
Theorem decryptRTP_dst_sizing w dst ct header headerLen d roc :
  In (EvDecrypt d roc) (newEvents w (snd (decryptRTP dst ct header headerLen w))) ->
  exists a pre post,
    AuthTagRTPLen (cipher (ctx w)) = inr a
    /\ newEvents w (snd (decryptRTP dst ct header headerLen w))
       = pre ++ [EvGrow (blen ct - a - blen (sendMKI (ctx w))); EvDecrypt d roc] ++ post
    /\ len d = blen ct - a - blen (sendMKI (ctx w))
    /\ blen ct - a - blen (sendMKI (ctx w)) <= cap d
    /\ (blen ct - a - blen (sendMKI (ctx w)) <= cap dst ->
        base d = base dst /\ arr d = arr dst)
    /\ (cap dst < blen ct - a - blen (sendMKI (ctx w)) -> base d = nextBase w).
Proof.
  path_cases w dst ct header headerLen;
    erewrite !newEvents_app by (simpl; reflexivity);
    unfold upToCheck, keyLookup;
    try match goal with |- context [0 <? ?x] => destruct (0 <? x) end;
    simpl; intros Hin;
    repeat match goal with
           | Hx : _ \/ _ |- _ => destruct Hx as [Hx|Hx]; try discriminate
           | Hx : False |- _ => destruct Hx
           end;
    injection Hin as <- <-;
    exists a;
    destruct (grow_sizing (nextBase w) dst need) as (G1 & G2 & G3 & G4).
  - exists (upToCheck header roc0 ++ [EvGetMKI]), []. repeat split; auto; apply G3; auto.
  - exists (upToCheck header roc0), []. repeat split; auto; apply G3; auto.
  - eexists (upToCheck header roc0 ++ [EvGetMKI]), _.
    repeat split; auto; try (apply G3; auto); try reflexivity.
  - eexists (upToCheck header roc0), _.
    repeat split; auto; try (apply G3; auto); try reflexivity.
Qed.

(** ** The overflow flag on the decrypt side *)

(** C6. [decryptRTP] does not look at the overflow flag of the rollover
    estimate: changing the flag in any way changes neither the value
    returned nor the world left behind; the call never fails with the
    exceeded-maximum-packets error; and unless it stopped at the tag lengths
    or the length check, the replay detector was queried with the index
    built from the estimated rollover count and the wire sequence number. *)
Theorem decryptRTP_ignores_overflow (f : Seq -> Z -> bool) w dst ct header headerLen :
  @decryptRTP Cipher RD Seq _ _ (withOverflow f) dst ct header headerLen w
  = decryptRTP dst ct header headerLen w
  /\ fst (decryptRTP dst ct header headerLen w) <> Err errExceededMaxPackets
  /\ (newEvents w (snd (decryptRTP dst ct header headerLen w)) = [EvAuthTagRTPLen]
      \/ newEvents w (snd (decryptRTP dst ct header headerLen w))
         = [EvAuthTagRTPLen; EvAEADAuthTagLen]
      \/ In (EvCheck (SSRC header)
               (packetIndex (fst (fst (estimate (ctx w) header)))
                  (SequenceNumber header)))
            (newEvents w (snd (decryptRTP dst ct header headerLen w)))).
Proof.
  split; [|split].
  - destruct w as [[cph smki mk sts nrd] tr nb].
    unfold decryptRTP, getSRTPSSRCState, deref, growBufferSize, bind, getCtx,
      emit, liftE, ret, throw, modifyStates, stateOf, newState, withStates.
    cbv beta iota delta [ctx trace nextBase cipher sendMKI mkis srtpSSRCStates
      newSRTPReplayDetector].
    destruct (AuthTagRTPLen cph); [reflexivity|].
    destruct (AEADAuthTagLen cph); [reflexivity|].
    destruct (blen ct <? _); [reflexivity|].
    destruct (sts !! SSRC header) eqn:E;
      cbv beta iota delta [ctx trace nextBase cipher sendMKI mkis srtpSSRCStates
        newSRTPReplayDetector];
      rewrite ?E, ?lookup_insert_eq;
      cbn [nextRolloverCount withOverflow zeroSeq seqState];
      match goal with
      | |- context [nextRolloverCount ?s ?q] =>
          destruct (nextRolloverCount s q) as [[roc diff] ovf]
      end;
      reflexivity.
  - path_cases w dst ct header headerLen; discriminate.
  - path_cases w dst ct header headerLen;
      erewrite !newEvents_app by (simpl; reflexivity); auto;
      right; right;
      match goal with Hx : estimate _ _ = _ |- _ => rewrite Hx end;
      simpl; auto 10.
Qed.

(** ** The MKI length *)

(** C10. The MKI length that [decryptRTP] works with is the length of the
    context's send MKI: the too-short error is returned exactly when the
    ciphertext is shorter than header length + AEAD tag length +
    len(sendMKI) + authentication tag length, and the destination buffer
    is grown to len(ciphertext) - authTagLen - len(sendMKI); this is so on
    the multi-key path too, where the transform is the one registered
    under the MKI taken from the packet, whatever that MKI's length. *)
Theorem decryptRTP_mki_length w dst ct header headerLen (a b : Z) :
  AuthTagRTPLen (cipher (ctx w)) = inr a ->
  AEADAuthTagLen (cipher (ctx w)) = inr b ->
  (fst (decryptRTP dst ct header headerLen w) = Err (errTooShortRTP (blen ct))
   <-> blen ct < headerLen + b + blen (sendMKI (ctx w)) + a)
  /\ (forall n, In (EvGrow n) (newEvents w (snd (decryptRTP dst ct header headerLen w))) ->
        n = blen ct - a - blen (sendMKI (ctx w)))
  /\ (forall out,
        fst (decryptRTP dst ct header headerLen w) = Ok out ->
        (0 < size (mkis (ctx w)))%nat ->
        exists cph d roc,
          mkis (ctx w) !! getMKI (cipher (ctx w)) ct true = Some cph
          /\ cipher_decryptRTP cph d ct header headerLen roc = inr out
          /\ len d = blen ct - a - blen (sendMKI (ctx w))
          /\ In (EvGrow (blen ct - a - blen (sendMKI (ctx w))))
               (newEvents w (snd (decryptRTP dst ct header headerLen w)))).
Proof.
  intros Ha Hb.
  path_cases w dst ct header headerLen;
    erewrite !newEvents_app by (simpl; reflexivity);
    repeat match goal with
           | Hx : AuthTagRTPLen _ = _ |- _ => rewrite Ha in Hx; inversion Hx; subst; clear Hx
           | Hx : AEADAuthTagLen _ = _ |- _ => rewrite Hb in Hx; inversion Hx; subst; clear Hx
           end;
    (split; [split; [try discriminate; intros; lia | intros; try lia; try reflexivity]|]);
    (split; [unfold upToCheck, keyLookup;
             try match goal with |- context [0 <? ?x] => destruct (0 <? x) end;
             simpl; intros n Hin;
             repeat match goal with
                    | Hx : _ \/ _ |- _ => destruct Hx as [Hx|Hx]; try discriminate
                    | Hx : False |- _ => destruct Hx
                    end;
             try (injection Hin as <-; reflexivity)
            | intros out' Hout Hsz; try discriminate]).
  injection Hout as <-.
  match goal with Hs : selectCipher _ _ = Some _ |- _ => unfold selectCipher in Hs end.
  assert (Hpos : (0 <? Z.of_nat (size (mkis (ctx w)))) = true) by (apply Z.ltb_lt; lia).
  rewrite Hpos in *.
  exists cph, d, roc. repeat split; auto.
  - apply (proj1 (grow_sizing _ _ _)).
  - unfold upToCheck, keyLookup. rewrite Hpos. simpl. auto 10.
Qed.

(** ** The packet index *)

Lemma packetIndex_in_range roc seq :
  0 <= roc < 2 ^ 32 -> 0 <= seq < 2 ^ 16 ->
  packetIndex roc seq = Z.lor (Z.shiftl roc 16) seq
  /\ packetIndex roc seq = roc * 65536 + seq
  /\ 0 <= packetIndex roc seq < 2 ^ 48.
Proof.
  intros Hr Hs. unfold packetIndex, uint64.
  rewrite (Z.mod_small roc) by lia.
  rewrite Z.shiftl_mul_pow2 by lia.
  rewrite (Z.mod_small (roc * 2 ^ 16)) by lia.
  rewrite (Z.mod_small seq) by lia.
  assert (Hland : Z.land (Z.shiftl roc 16) seq = 0).
  { apply Z.bits_inj'. intros n Hn. rewrite Z.land_spec, Z.bits_0.
    destruct (Z.lt_ge_cases n 16).
    - rewrite Z.shiftl_spec_low by lia. reflexivity.
    - rewrite (Z.bits_above_log2 seq n); [apply andb_false_r|lia|].
      destruct (Z.eq_dec seq 0) as [->|]; [simpl; lia|].
      apply Z.log2_lt_pow2; [lia|].
      apply Z.lt_le_trans with (2 ^ 16); [lia|apply Z.pow_le_mono_r; lia]. }
  assert (Hlor : Z.lor (roc * 2 ^ 16) seq = roc * 2 ^ 16 + seq).
  { rewrite <- Z.shiftl_mul_pow2 by lia.
    rewrite <- (Z.lxor_lor _ _ Hland). symmetry.
    apply Z.add_nocarry_lxor. exact Hland. }
  split; [reflexivity|].
  rewrite Hlor. split; lia.
Qed.

Lemma marks_app evs1 evs2 : marks (evs1 ++ evs2) = marks evs1 ++ marks evs2.
Proof.
  induction evs1 as [|e evs1 IH]; [reflexivity|].
  destruct e; simpl; rewrite ?IH; reflexivity.
Qed.

(** What one call shows of the index: the replay query, the transform and
    the mark all get the index built from the estimate of the source's
    state before the call. *)
Lemma decryptRTP_index w dst ct header headerLen :
  let roc := fst (fst (estimate (ctx w) header)) in
  let evs := newEvents w (snd (decryptRTP dst ct header headerLen w)) in
  (forall s i, In (EvCheck s i) evs ->
     s = SSRC header /\ i = packetIndex roc (SequenceNumber header))
  /\ (forall d r, In (EvDecrypt d r) evs -> r = roc)
  /\ marks evs
     = if isOk (fst (decryptRTP dst ct header headerLen w))
       then [(SSRC header, packetIndex roc (SequenceNumber header))]
       else [].
Proof.
  path_cases w dst ct header headerLen;
    erewrite !newEvents_app by (simpl; reflexivity);
    try match goal with Hx : estimate _ _ = _ |- _ => rewrite Hx end;
    unfold upToCheck, keyLookup;
    try match goal with |- context [0 <? ?x] => destruct (0 <? x) end;
    simpl; (split; [|split; [|reflexivity]]); intros x y Hin;
    repeat match goal with
           | Hx : _ \/ _ |- _ => destruct Hx as [Hx|Hx]; try discriminate
           | Hx : False |- _ => destruct Hx
           end;
    try (injection Hin as <- <-); auto.
Qed.

Section Uniqueness.

Context {Hlaw : @LawfulDetector RD _}.

(** One call: indices that were rejected before are rejected after, and an
    index that the call marked was not rejected before and is after. *)
Lemma decryptRTP_marks w dst ct header headerLen :
  exists evs,
    trace (snd (decryptRTP dst ct header headerLen w)) = trace w ++ evs
    /\ (forall p, rejected w p ->
                  rejected (snd (decryptRTP dst ct header headerLen w)) p)
    /\ (forall p, In p (marks evs) ->
                  ~ rejected w p
                  /\ rejected (snd (decryptRTP dst ct header headerLen w)) p)
    /\ NoDup (marks evs).
Proof.
  path_cases w dst ct header headerLen;
    (eexists; split; [reflexivity|]);
    unfold upToCheck, keyLookup;
    try match goal with |- context [0 <? ?x] => destruct (0 <? x) end;
    simpl;
    try (split; [intros p Hp; unfold rejected in *; simpl;
                 rewrite ?stateOf_ensure; exact Hp
                |split; [intros p []|constructor]]).
  all: split; [|split].
  1,4: intros [s j] Hp; unfold rejected in *; simpl in *;
       destruct (decide (SSRC header = s)) as [<-|Hne];
       [rewrite stateOf_committed_same; simpl;
        eapply rejected_stays; eassumption
       |rewrite stateOf_committed_other by assumption; exact Hp].
  1,3: intros p [<-|[]]; unfold rejected; simpl;
       (split;
        [match goal with Hx : Check _ _ = _ |- _ => rewrite Hx end;
         simpl; discriminate
        |rewrite stateOf_committed_same; simpl;
         eapply marked_rejected; eassumption]).
  all: apply NoDup_singleton.
Qed.

Lemma decryptMany_marks ps : forall w,
  exists evs,
    trace (snd (decryptMany ps w)) = trace w ++ evs
    /\ (forall p, rejected w p -> rejected (snd (decryptMany ps w)) p)
    /\ (forall p, In p (marks evs) ->
                  ~ rejected w p /\ rejected (snd (decryptMany ps w)) p)
    /\ NoDup (marks evs).
Proof.
  induction ps as [|pk ps IH]; intros w; simpl.
  - exists []. rewrite app_nil_r. repeat split; auto; try constructor.
    all: destruct H0.
  - destruct (decryptRTP_marks w (p_dst pk) (p_ciphertext pk) (p_header pk)
                (p_headerLen pk)) as (evs1 & T1 & K1 & M1 & N1).
    destruct (decryptRTP (p_dst pk) (p_ciphertext pk) (p_header pk)
                (p_headerLen pk) w) as [r w1]; simpl in *.
    destruct (IH w1) as (evs2 & T2 & K2 & M2 & N2).
    destruct (decryptMany ps w1) as [rs w2]; simpl in *.
    exists (evs1 ++ evs2). rewrite T2, T1, app_assoc, marks_app.
    split; [reflexivity|]. split; [auto|]. split.
    + intros p Hin. apply in_app_or in Hin as [Hin|Hin].
      * destruct (M1 p Hin). auto.
      * destruct (M2 p Hin). auto.
    + apply NoDup_app. split; [assumption|]. split; [|assumption].
      intros p Hin1 Hin2. apply list_elem_of_In in Hin1, Hin2.
      destruct (M1 p Hin1), (M2 p Hin2). contradiction.
Qed.


End Uniqueness.

(** ** The entry points *)

Lemma DecryptRTP_run w dst buf (ho : option Header) :
  DecryptRTP dst buf ho w
  = match snd (Unmarshal (headerOr ho) buf) with
    | inl msg => (Err (errForeign msg), logged w [EvUnmarshal buf])
    | inr n =>
        decryptRTP dst buf (fst (Unmarshal (headerOr ho) buf)) n
          (logged w [EvUnmarshal buf])
    end.
Proof.
  unfold DecryptRTP, unmarshalInto, headerOr, bind, emit, liftE, ret, throw, logged.
  destruct ho as [h|]; simpl;
    destruct (Unmarshal _ buf) as [h' [msg|n]]; reflexivity.
Qed.

Lemma EncryptRTP_run w dst buf (ho : option Header) :
  EncryptRTP dst buf ho w
  = match snd (Unmarshal (headerOr ho) buf) with
    | inl msg => (Err (errForeign msg), logged w [EvUnmarshal buf])
    | inr n =>
        if (0 <=? n) && (n <=? blen buf)
        then encryptRTP dst (fst (Unmarshal (headerOr ho) buf))
               (skipn (Z.to_nat n) buf) (logged w [EvUnmarshal buf])
        else (Panic, logged w [EvUnmarshal buf])
    end.
Proof.
  unfold EncryptRTP, unmarshalInto, headerOr, sliceFrom, bind, emit, liftE, ret,
    throw, panic, logged.
  destruct ho as [h|]; simpl;
    destruct (Unmarshal _ buf) as [h' [msg|n]]; simpl; try reflexivity;
    destruct ((0 <=? n) && (n <=? blen buf)); reflexivity.
Qed.

(** C9. [DecryptRTP] and [EncryptRTP] accept a nil header, for which they
    work on a new zero header; in every case the first thing they do is
    unmarshal the input bytes into the header, and all that follows uses the
    header and the header length that came out of it, so that two headers
    which the codec fills alike give the same result and the same world; if
    unmarshaling fails its error is returned and nothing but the
    unmarshaling is in the trace, the context being as it was. *)
Theorem entry_points_reparse w dst buf :
  DecryptRTP dst buf None w = DecryptRTP dst buf (Some zeroHeader) w
  /\ EncryptRTP dst buf None w = EncryptRTP dst buf (Some zeroHeader) w
  /\ (forall h1 h2,
        Unmarshal h1 buf = Unmarshal h2 buf ->
        DecryptRTP dst buf (Some h1) w = DecryptRTP dst buf (Some h2) w
        /\ EncryptRTP dst buf (Some h1) w = EncryptRTP dst buf (Some h2) w)
  /\ (forall ho,
        (exists evs,
           newEvents w (snd (DecryptRTP dst buf ho w)) = EvUnmarshal buf :: evs)
        /\ (exists evs,
              newEvents w (snd (EncryptRTP dst buf ho w)) = EvUnmarshal buf :: evs)
        /\ match snd (Unmarshal (headerOr ho) buf) with
           | inl msg =>
               DecryptRTP dst buf ho w
               = (Err (errForeign msg), logged w [EvUnmarshal buf])
               /\ EncryptRTP dst buf ho w
                  = (Err (errForeign msg), logged w [EvUnmarshal buf])
           | inr n =>
               DecryptRTP dst buf ho w
               = decryptRTP dst buf (fst (Unmarshal (headerOr ho) buf)) n
                   (logged w [EvUnmarshal buf])
           end).
Proof.
  split; [reflexivity|]. split; [reflexivity|]. split.
  - intros h1 h2 E. rewrite !DecryptRTP_run, !EncryptRTP_run.
    unfold headerOr. rewrite E. split; reflexivity.
  - intros ho. rewrite DecryptRTP_run, EncryptRTP_run.
    destruct (Unmarshal (headerOr ho) buf) as [h [msg|n]] eqn:E; simpl.
    + split; [|split; [|split; reflexivity]];
        exists []; apply newEvents_app; reflexivity.
    + split; [|split; [|reflexivity]].
      * destruct (decryptRTP_trace (logged w [EvUnmarshal buf]) dst buf h n)
          as (evs & T).
        exists evs. apply newEvents_app. rewrite T. simpl.
        rewrite <- app_assoc. reflexivity.
      * destruct ((0 <=? n) && (n <=? blen buf)).
        -- destruct (estimate (ctx (logged w [EvUnmarshal buf])) h)
             as [[roc diff] ovf] eqn:Hest.
           rewrite (encryptRTP_run _ dst h (skipn (Z.to_nat n) buf) _ _ _ Hest).
           destruct ovf; eexists; apply newEvents_app; simpl;
             rewrite <- app_assoc; reflexivity.
        -- exists []. apply newEvents_app. reflexivity.
Qed.

(** ** Round trip *)


(** * Further properties of the four functions *)

(** ** The registry under the two commits *)

Lemma stateOf_advanced_same c id seq diff :
  stateOf (advanced (ensure c id) id seq diff) id
  = mkSSRCState (ssrc (stateOf c id))
      (updateRolloverCount (seqState (stateOf c id)) seq diff)
      (replayDetector (stateOf c id)).
Proof.
  unfold stateOf at 1, advanced; simpl.
  rewrite lookup_alter_eq, lookup_ensure. reflexivity.
Qed.

Lemma stateOf_advanced_other c id id' seq diff :
  id <> id' ->
  stateOf (advanced (ensure c id) id seq diff) id' = stateOf c id'.
Proof.
  intros Hne. rewrite <- (stateOf_ensure c id id').
  unfold stateOf, advanced; simpl.
  rewrite lookup_alter_ne by assumption. reflexivity.
Qed.

Lemma lookup_ensure_other c id id' :
  id <> id' -> srtpSSRCStates (ensure c id) !! id' = srtpSSRCStates c !! id'.
Proof.
  intros Hne. unfold ensure.
  destruct (srtpSSRCStates c !! id); [reflexivity|]. simpl.
  apply lookup_insert_ne. assumption.
Qed.

Lemma is_Some_ensure c id id' :
  is_Some (srtpSSRCStates (ensure c id) !! id')
  <-> is_Some (srtpSSRCStates c !! id') \/ id' = id.
Proof.
  destruct (decide (id = id')) as [->|Hne].
  - rewrite lookup_ensure. split; [auto|eauto].
  - rewrite lookup_ensure_other by assumption.
    split; [auto|intros [|]; [assumption|congruence]].
Qed.

Lemma is_Some_committed c id mark seq diff id' :
  is_Some (srtpSSRCStates (committed c id mark seq diff) !! id')
  <-> is_Some (srtpSSRCStates c !! id').
Proof.
  unfold committed; simpl. rewrite !lookup_alter.
  repeat case_decide; subst; rewrite ?fmap_is_Some; reflexivity.
Qed.

Lemma is_Some_advanced c id seq diff id' :
  is_Some (srtpSSRCStates (advanced c id seq diff) !! id')
  <-> is_Some (srtpSSRCStates c !! id').
Proof.
  unfold advanced; simpl. rewrite lookup_alter.
  case_decide; subst; rewrite ?fmap_is_Some; reflexivity.
Qed.

(** ** A packet under an MKI that is not registered *)

(** X1. With MKIs configured, a packet that passed the length check and the
    replay query but carries an MKI with no transform registered fails with
    [ErrMKINotFound]: the context's own transform is not used in its place,
    no buffer is grown or allocated, no transform is called, nothing is
    committed, and the state of every source is as it was. *)
Theorem decryptRTP_key_not_found w dst ct header headerLen a b roc diff ovf mark :
  AuthTagRTPLen (cipher (ctx w)) = inr a ->
  AEADAuthTagLen (cipher (ctx w)) = inr b ->
  headerLen + b + blen (sendMKI (ctx w)) + a <= blen ct ->
  estimate (ctx w) header = (roc, diff, ovf) ->
  Check (replayDetector (stateOf (ctx w) (SSRC header)))
        (packetIndex roc (SequenceNumber header)) = (mark, true) ->
  (0 < size (mkis (ctx w)))%nat ->
  mkis (ctx w) !! getMKI (cipher (ctx w)) ct true = None ->
  fst (decryptRTP dst ct header headerLen w) = Err ErrMKINotFound
  /\ newEvents w (snd (decryptRTP dst ct header headerLen w))
     = upToCheck header roc ++ [EvGetMKI]
  /\ (forall id, stateOf (ctx (snd (decryptRTP dst ct header headerLen w))) id
                 = stateOf (ctx w) id)
  /\ nextBase (snd (decryptRTP dst ct header headerLen w)) = nextBase w.
Proof.
  intros Ha Hb Hlen Hest Hchk Hsz Hno.
  assert (Hsel : selectCipher (ctx w) ct = None).
  { unfold selectCipher.
    replace (0 <? Z.of_nat (size (mkis (ctx w)))) with true
      by (symmetry; apply Z.ltb_lt; lia).
    exact Hno. }
  rewrite (decryptRTP_key_missing _ dst _ _ _ _ _ _ _ _ _ _ Ha Hb Hlen Hest Hchk
             eq_refl Hsel); simpl.
  erewrite newEvents_app by (simpl; reflexivity).
  repeat split. intros id. apply stateOf_ensure.
Qed.

(** ** One source at a time *)

(** X2. A call of [decryptRTP] or [encryptRTP] never changes the
    configuration of the context (cipher, send MKI, MKI registry, detector
    factory), and it leaves the Sequence State and the replay detector of
    every source other than the packet's as they were, whatever its
    outcome. *)
Theorem calls_touch_one_source w dst ct payload header headerLen :
  (cipher (ctx (snd (decryptRTP dst ct header headerLen w))) = cipher (ctx w)
   /\ sendMKI (ctx (snd (decryptRTP dst ct header headerLen w))) = sendMKI (ctx w)
   /\ mkis (ctx (snd (decryptRTP dst ct header headerLen w))) = mkis (ctx w)
   /\ newSRTPReplayDetector (ctx (snd (decryptRTP dst ct header headerLen w)))
      = newSRTPReplayDetector (ctx w))
  /\ (cipher (ctx (snd (encryptRTP dst header payload w))) = cipher (ctx w)
      /\ sendMKI (ctx (snd (encryptRTP dst header payload w))) = sendMKI (ctx w)
      /\ mkis (ctx (snd (encryptRTP dst header payload w))) = mkis (ctx w)
      /\ newSRTPReplayDetector (ctx (snd (encryptRTP dst header payload w)))
         = newSRTPReplayDetector (ctx w))
  /\ (forall id, id <> SSRC header ->
        stateOf (ctx (snd (decryptRTP dst ct header headerLen w))) id
        = stateOf (ctx w) id
        /\ stateOf (ctx (snd (encryptRTP dst header payload w))) id
           = stateOf (ctx w) id).
Proof.
  split; [|split].
  - path_cases w dst ct header headerLen; auto;
      destruct (ensure_config (ctx w) (SSRC header)) as (? & ? & ? & ?); auto.
  - destruct (estimate (ctx w) header) as [[roc diff] ovf] eqn:Hest.
    rewrite (encryptRTP_run _ dst _ payload _ _ _ Hest).
    destruct (ensure_config (ctx w) (SSRC header)) as (? & ? & ? & ?).
    destruct ovf; simpl; auto.
  - intros id Hne. split.
    + path_cases w dst ct header headerLen; auto using stateOf_ensure.
      apply stateOf_committed_other. congruence.
    + destruct (estimate (ctx w) header) as [[roc diff] ovf] eqn:Hest.
      rewrite (encryptRTP_run _ dst _ payload _ _ _ Hest).
      destruct ovf; simpl; [apply stateOf_ensure|].
      apply stateOf_advanced_other. congruence.
Qed.

(** ** The encrypt side *)

(** X3. [encryptRTP] commits the rollover update before it calls the
    transform and does not take it back: when the transform's encrypt
    fails, the call returns that error as it is and the source's rollover
    bookkeeping has nevertheless taken the update (its replay detector is
    untouched). *)
Theorem encryptRTP_commits_before_transform w dst header payload roc diff msg :
  estimate (ctx w) header = (roc, diff, false) ->
  cipher_encryptRTP (cipher (ctx w)) dst header payload roc = inl msg ->
  fst (encryptRTP dst header payload w) = Err (errForeign msg)
  /\ newEvents w (snd (encryptRTP dst header payload w))
     = [EvGetState (SSRC header);
        EvNextRolloverCount (SSRC header) (SequenceNumber header);
        EvUpdateRolloverCount (SSRC header) (SequenceNumber header) diff;
        EvEncrypt payload roc]
  /\ stateOf (ctx (snd (encryptRTP dst header payload w))) (SSRC header)
     = mkSSRCState (ssrc (stateOf (ctx w) (SSRC header)))
         (updateRolloverCount (seqState (stateOf (ctx w) (SSRC header)))
            (SequenceNumber header) diff)
         (replayDetector (stateOf (ctx w) (SSRC header))).
Proof.
  intros Hest Henc.
  rewrite (encryptRTP_run _ dst _ payload _ _ _ Hest); simpl.
  rewrite Henc. erewrite newEvents_app by (simpl; reflexivity).
  repeat split. apply stateOf_advanced_same.
Qed.

(** X4. [encryptRTP] works with the context's own transform and nothing
    else: whatever MKIs are registered and whatever the outcome, it returns
    the budget error or what the context's transform returns for the
    caller's buffer and the estimated rollover count, it makes no replay
    query, mark, MKI lookup or buffer growth, it allocates nothing, and the
    replay detector of every source is as it was. *)
Theorem encryptRTP_uses_context_cipher w dst header payload :
  (fst (encryptRTP dst header payload w) = Err errExceededMaxPackets
   \/ fst (encryptRTP dst header payload w)
      = match cipher_encryptRTP (cipher (ctx w)) dst header payload
                (fst (fst (estimate (ctx w) header))) with
        | inl msg => Err (errForeign msg)
        | inr out => Ok out
        end)
  /\ Forall (fun e => match e with
                      | EvCheck _ _ | EvMarkAsValid _ _ | EvGetMKI | EvGrow _
                      | EvDecrypt _ _ => False
                      | _ => True
                      end)
       (newEvents w (snd (encryptRTP dst header payload w)))
  /\ nextBase (snd (encryptRTP dst header payload w)) = nextBase w
  /\ (forall id,
        replayDetector (stateOf (ctx (snd (encryptRTP dst header payload w))) id)
        = replayDetector (stateOf (ctx w) id)).
Proof.
  destruct (estimate (ctx w) header) as [[roc diff] ovf] eqn:Hest.
  rewrite (encryptRTP_run _ dst _ payload _ _ _ Hest).
  destruct ovf; simpl; erewrite newEvents_app by (simpl; reflexivity).
  - split; [left; reflexivity|]. split; [repeat constructor|].
    split; [reflexivity|]. intros id. rewrite stateOf_ensure. reflexivity.
  - split; [right; reflexivity|]. split; [repeat constructor|].
    split; [reflexivity|]. intros id.
    destruct (decide (SSRC header = id)) as [<-|Hne].
    + rewrite stateOf_advanced_same. reflexivity.
    + rewrite stateOf_advanced_other by assumption. reflexivity.
Qed.

(** ** What an accepted packet leaves behind *)

(** X5. When [decryptRTP] returns a packet, the entry of the packet's
    source has taken exactly the two commits: its replay detector is the
    one the deferred mark of the replay query produced, and its rollover
    bookkeeping took the update with the packet's sequence number and the
    difference that was estimated before the transform ran. *)
Theorem decryptRTP_accept_commits w dst ct header headerLen out :
  fst (decryptRTP dst ct header headerLen w) = Ok out ->
  snd (Check (replayDetector (stateOf (ctx w) (SSRC header)))
         (packetIndex (fst (fst (estimate (ctx w) header)))
            (SequenceNumber header))) = true
  /\ stateOf (ctx (snd (decryptRTP dst ct header headerLen w))) (SSRC header)
     = mkSSRCState (ssrc (stateOf (ctx w) (SSRC header)))
         (updateRolloverCount (seqState (stateOf (ctx w) (SSRC header)))
            (SequenceNumber header) (snd (fst (estimate (ctx w) header))))
         (fst (Check (replayDetector (stateOf (ctx w) (SSRC header)))
                 (packetIndex (fst (fst (estimate (ctx w) header)))
                    (SequenceNumber header)))
            (replayDetector (stateOf (ctx w) (SSRC header)))).
Proof.
  path_cases w dst ct header headerLen; try discriminate.
  intros _.
  match goal with Hx : estimate _ _ = _ |- _ => rewrite Hx end. simpl.
  match goal with Hx : Check _ _ = _ |- _ => rewrite Hx end. simpl.
  split; [reflexivity|]. apply stateOf_committed_same.
Qed.

(** ** The registry of sources *)

(** X6. [decryptRTP] never removes a source from the registry and adds at
    most the packet's own; it resolves the source's state before the replay
    query, the key lookup and the transform, so once a packet has passed the
    length check its source has an entry, also when the packet is then
    rejected as a duplicate, for its MKI, or by the transform. *)
Theorem decryptRTP_registry w dst ct header headerLen :
  (forall id,
     is_Some (srtpSSRCStates (ctx w) !! id) ->
     is_Some (srtpSSRCStates (ctx (snd (decryptRTP dst ct header headerLen w))) !! id))
  /\ (forall id,
        is_Some (srtpSSRCStates (ctx (snd (decryptRTP dst ct header headerLen w))) !! id) ->
        is_Some (srtpSSRCStates (ctx w) !! id) \/ id = SSRC header)
  /\ (forall a b,
        AuthTagRTPLen (cipher (ctx w)) = inr a ->
        AEADAuthTagLen (cipher (ctx w)) = inr b ->
        headerLen + b + blen (sendMKI (ctx w)) + a <= blen ct ->
        is_Some (srtpSSRCStates (ctx (snd (decryptRTP dst ct header headerLen w)))
                   !! SSRC header)).
Proof.
  path_cases w dst ct header headerLen.
  1-2: split; [auto|split; [auto|]]; intros a' b' Ha' Hb' Hlen'; congruence.
  1: { split; [auto|split; [auto|]]. intros a' b' Ha' Hb' Hlen'. exfalso.
       assert (a' = a) by congruence. assert (b' = b) by congruence.
       subst. lia. }
  1-3: split; [intros id Hid; apply is_Some_ensure; auto|];
       (split; [intros id Hid; apply is_Some_ensure in Hid; auto|]);
       intros; rewrite lookup_ensure; eauto.
  split; [intros id Hid; apply is_Some_committed, is_Some_ensure; auto|].
  split; [intros id Hid; apply is_Some_committed, is_Some_ensure in Hid; auto|].
  intros. apply is_Some_committed. rewrite lookup_ensure. eauto.
Qed.

(** ** Allocation *)

(** X7. [decryptRTP] allocates at most one buffer, and only on the way to
    the transform when the caller's buffer has less capacity than
    len(ciphertext) - authTagLen - len(sendMKI); the transform then gets
    that new buffer. *)
Theorem decryptRTP_allocation w dst ct header headerLen :
  nextBase (snd (decryptRTP dst ct header headerLen w)) = nextBase w
  \/ (nextBase (snd (decryptRTP dst ct header headerLen w)) = S (nextBase w)
      /\ exists a d roc,
           AuthTagRTPLen (cipher (ctx w)) = inr a
           /\ cap dst < blen ct - a - blen (sendMKI (ctx w))
           /\ base d = nextBase w
           /\ In (EvDecrypt d roc)
                (newEvents w (snd (decryptRTP dst ct header headerLen w)))).
Proof.
  path_cases w dst ct header headerLen; auto;
    erewrite newEvents_app by (simpl; reflexivity);
    (destruct (need <=? cap dst) eqn:Hcap; [left; reflexivity|right]);
    apply Z.leb_gt in Hcap;
    (split; [reflexivity|]); exists a, d, roc;
    (split; [assumption|]); (split; [exact Hcap|]);
    (split; [apply (grow_sizing (nextBase w) dst need); exact Hcap|]);
    unfold upToCheck, keyLookup;
    try match goal with |- context [0 <? ?x] => destruct (0 <? x) end;
    simpl; auto 12.
Qed.

(** ** Replay *)

Section ReplayAfterAccept.

Context {Hlaw : @LawfulDetector RD _}.

(** X8. With a replay detector that rejects what it has accepted: once
    [decryptRTP] has returned a packet, the same packet presented again is
    rejected with the duplicate-packet error, into whatever buffer, and
    leaves the state of every source as the first call left it.  The
    rollover estimate for the packet must come out the same after the first
    call, as it does for a packet that is the latest of its source. *)
Theorem replay_is_rejected w dst dst2 ct header headerLen out :
  fst (decryptRTP dst ct header headerLen w) = Ok out ->
  fst (fst (estimate (ctx (snd (decryptRTP dst ct header headerLen w))) header))
  = fst (fst (estimate (ctx w) header)) ->
  fst (decryptRTP dst2 ct header headerLen
         (snd (decryptRTP dst ct header headerLen w)))
  = Err (duplicatedError "srtp" (SSRC header) (uint32 (SequenceNumber header)))
  /\ (forall id,
        stateOf (ctx (snd (decryptRTP dst2 ct header headerLen
                             (snd (decryptRTP dst ct header headerLen w))))) id
        = stateOf (ctx (snd (decryptRTP dst ct header headerLen w))) id).
Proof.
  path_cases w dst ct header headerLen; try discriminate.
  intros _ Hsame.
  match goal with |- context [decryptRTP dst2 ct header headerLen ?W] =>
    set (w1 := W) end.
  destruct (ensure_config (ctx w) (SSRC header)) as (Ec & Es & _ & _).
  assert (Ha1 : AuthTagRTPLen (cipher (ctx w1)) = inr a)
    by (simpl; rewrite Ec; assumption).
  assert (Hb1 : AEADAuthTagLen (cipher (ctx w1)) = inr b)
    by (simpl; rewrite Ec; assumption).
  assert (Hlen1 : headerLen + b + blen (sendMKI (ctx w1)) + a <= blen ct)
    by (simpl; rewrite Es; assumption).
  destruct (estimate (ctx w1) header) as [[roc1 diff1] ovf1] eqn:Hest1.
  match goal with Hx : estimate (ctx w) header = _ |- _ =>
    rewrite Hx in Hsame end.
  pose proof Hest1 as Hest1s. unfold w1 in Hest1s. simpl in Hest1s.
  rewrite Hest1s in Hsame. simpl in Hsame. subst roc1.
  destruct (Check (replayDetector (stateOf (ctx w1) (SSRC header)))
              (packetIndex roc (SequenceNumber header))) as [mark1 ok1] eqn:Hchk1.
  assert (ok1 = false) as ->.
  { pose proof (f_equal snd Hchk1) as Hs. simpl in Hs. rewrite <- Hs.
    unfold w1; simpl. rewrite stateOf_committed_same; simpl.
    eapply marked_rejected; eassumption. }
  rewrite (decryptRTP_duplicate w1 dst2 ct header headerLen a b roc diff1 ovf1
             false mark1 Ha1 Hb1 Hlen1 Hest1 Hchk1 eq_refl).
  simpl. split; [reflexivity|]. intros id. apply stateOf_ensure.
Qed.

End ReplayAfterAccept.

(** ** Which transform is asked what *)

(** X9. Of the transform interface, [decryptRTP] uses the two tag lengths
    and the MKI extraction of the context's own cipher, and the decrypt of
    the cipher it settles on; a transform interface that differs anywhere
    else (the tag lengths or MKI extraction of the other registered ciphers,
    any cipher's encrypt) gives the same result and the same world.  So with
    several keys the packet is measured with the context cipher's tag
    lengths also when the MKI selects another cipher. *)
Theorem decryptRTP_tag_lengths_of_context
    (f g : Cipher -> string + Z) (m : Cipher -> list Z -> bool -> list Z)
    (e : Cipher -> slice -> Header -> list Z -> Z -> string + slice)
    w dst ct header headerLen :
  f (cipher (ctx w)) = AuthTagRTPLen (cipher (ctx w)) ->
  g (cipher (ctx w)) = AEADAuthTagLen (cipher (ctx w)) ->
  m (cipher (ctx w)) ct true = getMKI (cipher (ctx w)) ct true ->
  @decryptRTP Cipher RD Seq (cipherWith f g m e) _ _ dst ct header headerLen w
  = decryptRTP dst ct header headerLen w.
Proof.
  destruct w as [[cph smki mk sts nrd] tr nb]. simpl.
  intros Ha Hb Hm.
  unfold decryptRTP, getSRTPSSRCState, deref, growBufferSize, bind, getCtx,
    emit, liftE, ret, throw, modifyStates, stateOf, newState, withStates.
  cbv beta iota delta [ctx trace nextBase cipher sendMKI mkis srtpSSRCStates
    newSRTPReplayDetector].
  cbn [AuthTagRTPLen AEADAuthTagLen getMKI cipher_decryptRTP cipherWith].
  rewrite Ha, Hb, Hm.
  destruct (AuthTagRTPLen cph); [reflexivity|].
  destruct (AEADAuthTagLen cph); [reflexivity|].
  destruct (blen ct <? _); [reflexivity|].
  destruct (sts !! SSRC header) eqn:E;
    cbv beta iota delta [ctx trace nextBase cipher sendMKI mkis srtpSSRCStates
      newSRTPReplayDetector];
    rewrite ?E, ?lookup_insert_eq;
    match goal with
    | |- context [nextRolloverCount ?s ?q] =>
        destruct (nextRolloverCount s q) as [[roc diff] ovf]
    end;
    match goal with
    | |- context [Check ?d ?i] => destruct (Check d i) as [mark ok]
    end;
    (destruct ok; simpl; [|reflexivity]);
    destruct (0 <? Z.of_nat (size mk));
    try (destruct (mk !! getMKI cph ct true); [|reflexivity]);
    reflexivity.
Qed.

(** ** What [EncryptRTP] encrypts *)

(** X10. [EncryptRTP] encrypts the bytes that follow the header: with the
    header and header length that unmarshaling the plaintext gave (whatever
    the caller's header held before) and the budget not exhausted, it
    commits the rollover update for the parsed source and sequence number
    and returns what the context's transform returns for that header, the
    plaintext from the header length on, and the estimated rollover count;
    a plaintext that is all header is encrypted with an empty payload. *)
Theorem EncryptRTP_payload w dst buf (ho : option Header) h n roc diff :
  Unmarshal (headerOr ho) buf = (h, inr n) ->
  0 <= n <= blen buf ->
  estimate (ctx w) h = (roc, diff, false) ->
  fst (EncryptRTP dst buf ho w)
  = match cipher_encryptRTP (cipher (ctx w)) dst h (skipn (Z.to_nat n) buf) roc with
    | inl msg => Err (errForeign msg)
    | inr out => Ok out
    end
  /\ newEvents w (snd (EncryptRTP dst buf ho w))
     = [EvUnmarshal buf; EvGetState (SSRC h);
        EvNextRolloverCount (SSRC h) (SequenceNumber h);
        EvUpdateRolloverCount (SSRC h) (SequenceNumber h) diff;
        EvEncrypt (skipn (Z.to_nat n) buf) roc]
  /\ (n = blen buf -> skipn (Z.to_nat n) buf = []).
Proof.
  intros Hu Hn Hest.
  rewrite EncryptRTP_run, Hu; simpl.
  replace ((0 <=? n) && (n <=? blen buf)) with true
    by (symmetry; apply andb_true_iff; split; apply Z.leb_le; lia).
  rewrite (encryptRTP_run (logged w [EvUnmarshal buf]) dst h
             (skipn (Z.to_nat n) buf) roc diff false Hest); simpl.
  split; [destruct (cipher_encryptRTP _ _ _ _ _); reflexivity|].
  split.
  - apply newEvents_app. simpl. rewrite <- app_assoc. reflexivity.
  - intros ->. unfold blen. rewrite Nat2Z.id. apply skipn_all.
Qed.

End Properties.

(** * The orchestrator on concrete packets *)

Import Sample.

(** The sample detector rejects what it has accepted. *)
#[export] Instance listDetector_lawful : @LawfulDetector (list Z) listDetector.
Proof.
  split.
  - intros d i m Hc. injection Hc as <- _. simpl.
    rewrite Z.eqb_refl. reflexivity.
  - intros d i m j Hc Hj. injection Hc as <- _. simpl in *.
    apply negb_false_iff in Hj. rewrite Hj. apply negb_false_iff, orb_true_r.
Qed.

(** The bytes of the sample packets, in the clear and on the wire. *)
Example sample_packets :
  rtpPacket 5 [3; 4] = [128; 96; 0; 5; 0; 0; 0; 0; 0; 0; 0; 1; 3; 4]
  /\ wire sampleCipher 65535 0 [1; 2]
     = [128; 96; 255; 255; 0; 0; 0; 0; 0; 0; 0; 1; 7; 4; 6; 6]
  /\ wire sampleCipher 5 1 [3; 4]
     = [128; 96; 0; 5; 0; 0; 0; 0; 0; 0; 0; 1; 14; 9; 13; 13]
  /\ wire sampleCipher 5 0 [3; 4]
     = [128; 96; 0; 5; 0; 0; 0; 0; 0; 0; 0; 1; 15; 8; 12; 12]
  /\ wire cipher8 5 0 [3; 4]
     = [128; 96; 0; 5; 0; 0; 0; 0; 0; 0; 0; 1; 19; 20; 8; 16; 16]
  /\ wire cipher9 5 0 [3; 4]
     = [128; 96; 0; 5; 0; 0; 0; 0; 0; 0; 0; 1; 15; 8; 9; 12; 12]
  /\ wire cipher77 5 0 [3; 4]
     = [128; 96; 0; 5; 0; 0; 0; 0; 0; 0; 0; 1; 15; 8; 7; 7; 12; 12]
  /\ parseHeader zeroHeader (rtpPacket 5 [3; 4]) = (hdr 5, inr 12).
Proof. repeat split; vm_compute; reflexivity. Qed.

(** [wrappedWorld] is where a receiver stands after the packets 65535 and 5. *)
Example wrappedWorld_reached :
  ctx (snd (decryptMany
              [mkPacket nilSlice [128; 96; 255; 255; 0; 0; 0; 0; 0; 0; 0; 1; 7; 4; 6; 6]
                 (hdr 65535) 12;
               mkPacket nilSlice [128; 96; 0; 5; 0; 0; 0; 0; 0; 0; 0; 1; 14; 9; 13; 13]
                 (hdr 5) 12]
              freshWorld))
  = ctx wrappedWorld.
Proof. vm_compute. reflexivity. Qed.

(** C5 on a thirteen-byte packet: header 12 + tag 2 is more. *)
Lemma decryptRTP_too_short_witness :
  fst (decryptRTP nilSlice [128; 96; 0; 5; 0; 0; 0; 0; 0; 0; 0; 1; 14] (hdr 5) 12
         freshWorld)
  = Err (errTooShortRTP (blen [128; 96; 0; 5; 0; 0; 0; 0; 0; 0; 0; 1; 14]))
  /\ newEvents freshWorld
       (snd (decryptRTP nilSlice [128; 96; 0; 5; 0; 0; 0; 0; 0; 0; 0; 1; 14]
               (hdr 5) 12 freshWorld))
     = [EvAuthTagRTPLen; EvAEADAuthTagLen]
  /\ ctx (snd (decryptRTP nilSlice [128; 96; 0; 5; 0; 0; 0; 0; 0; 0; 0; 1; 14]
                 (hdr 5) 12 freshWorld))
     = ctx freshWorld
  /\ nextBase (snd (decryptRTP nilSlice [128; 96; 0; 5; 0; 0; 0; 0; 0; 0; 0; 1; 14]
                      (hdr 5) 12 freshWorld))
     = nextBase freshWorld.
Proof.
  apply (decryptRTP_too_short freshWorld nilSlice
           [128; 96; 0; 5; 0; 0; 0; 0; 0; 0; 0; 1; 14] (hdr 5) 12 2 0);
    [reflexivity | reflexivity | vm_compute; reflexivity].
Defined.

(** C3 on a sender at the ceiling whose sequence number wraps. *)
Lemma encryptRTP_budget_witness :
  fst (encryptRTP nilSlice (hdr 0) [1; 2] exhaustedWorld) = Err errExceededMaxPackets
  /\ newEvents exhaustedWorld (snd (encryptRTP nilSlice (hdr 0) [1; 2] exhaustedWorld))
     = [EvGetState 1; EvNextRolloverCount 1 0]
  /\ (forall id,
        stateOf (ctx (snd (encryptRTP nilSlice (hdr 0) [1; 2] exhaustedWorld))) id
        = stateOf (ctx exhaustedWorld) id)
  /\ Forall (fun e => isCommit e = false /\ isTransform e = false)
       (newEvents exhaustedWorld
          (snd (encryptRTP nilSlice (hdr 0) [1; 2] exhaustedWorld))).
Proof.
  apply (encryptRTP_budget exhaustedWorld nilSlice (hdr 0) [1; 2] 0 1).
  vm_compute. reflexivity.
Defined.

(** C4 at the replay of packet 5 after the wrap: the detector is asked
    about index 65541 and the error names index 5. *)
Lemma decryptRTP_duplicate_error_witness :
  fst (decryptRTP nilSlice [128; 96; 0; 5; 0; 0; 0; 0; 0; 0; 0; 1; 14; 9; 13; 13]
         (hdr 5) 12 wrappedWorld)
  = Err (duplicatedError "srtp" 1 (uint32 5))
  /\ newEvents wrappedWorld
       (snd (decryptRTP nilSlice [128; 96; 0; 5; 0; 0; 0; 0; 0; 0; 0; 1; 14; 9; 13; 13]
               (hdr 5) 12 wrappedWorld))
     = upToCheck (hdr 5) 1
  /\ (forall id,
        stateOf (ctx (snd (decryptRTP nilSlice
                             [128; 96; 0; 5; 0; 0; 0; 0; 0; 0; 0; 1; 14; 9; 13; 13]
                             (hdr 5) 12 wrappedWorld))) id
        = stateOf (ctx wrappedWorld) id)
  /\ (0 <= 5 < 2 ^ 16 -> uint32 5 = 5).
Proof.
  apply (decryptRTP_duplicate_error wrappedWorld nilSlice
           [128; 96; 0; 5; 0; 0; 0; 0; 0; 0; 0; 1; 14; 9; 13; 13] (hdr 5) 12
           2 0 1 0 false (fun d => 65541 :: d));
    [reflexivity | reflexivity | vm_compute; discriminate
    | vm_compute; reflexivity | vm_compute; reflexivity].
Defined.

(** C4 as stated fails there: the index the detector rejected is 65541, the
    index in the error is 5. *)
Lemma duplicate_error_index_counterexample :
  estimate (ctx wrappedWorld) (hdr 5) = (1, 0, false)
  /\ packetIndex 1 (SequenceNumber (hdr 5)) = 65541
  /\ Check (replayDetector (stateOf (ctx wrappedWorld) 1)) 65541
     = (fun d => 65541 :: d, false)
  /\ fst (decryptRTP nilSlice [128; 96; 0; 5; 0; 0; 0; 0; 0; 0; 0; 1; 14; 9; 13; 13]
            (hdr 5) 12 wrappedWorld)
     = Err (duplicatedError "srtp" 1 5)
  /\ fst (decryptRTP nilSlice [128; 96; 0; 5; 0; 0; 0; 0; 0; 0; 0; 1; 14; 9; 13; 13]
            (hdr 5) 12 wrappedWorld)
     <> Err (duplicatedError "srtp" 1 65541).
Proof.
  repeat split; try (vm_compute; reflexivity).
  vm_compute. discriminate.
Qed.

(** C7 with a caller's buffer of capacity 20: the transform gets the same
    backing array, cut to the 14 bytes that 16 - 2 - 0 leaves. *)
Lemma decryptRTP_dst_sizing_witness :
  exists a pre post,
    AuthTagRTPLen (cipher (ctx freshWorld)) = inr a
    /\ newEvents freshWorld
         (snd (decryptRTP (mkSlice 7 (repeat 0 20%nat) 0)
                 [128; 96; 0; 5; 0; 0; 0; 0; 0; 0; 0; 1; 15; 8; 12; 12]
                 (hdr 5) 12 freshWorld))
       = pre ++ [EvGrow (blen [128; 96; 0; 5; 0; 0; 0; 0; 0; 0; 0; 1; 15; 8; 12; 12]
                         - a - blen (sendMKI (ctx freshWorld)));
                 EvDecrypt (mkSlice 7 (repeat 0 20%nat) 14) 0] ++ post
    /\ len (mkSlice 7 (repeat 0 20%nat) 14)
       = blen [128; 96; 0; 5; 0; 0; 0; 0; 0; 0; 0; 1; 15; 8; 12; 12]
         - a - blen (sendMKI (ctx freshWorld))
    /\ blen [128; 96; 0; 5; 0; 0; 0; 0; 0; 0; 0; 1; 15; 8; 12; 12]
       - a - blen (sendMKI (ctx freshWorld))
       <= cap (mkSlice 7 (repeat 0 20%nat) 14)
    /\ (blen [128; 96; 0; 5; 0; 0; 0; 0; 0; 0; 0; 1; 15; 8; 12; 12]
        - a - blen (sendMKI (ctx freshWorld))
        <= cap (mkSlice 7 (repeat 0 20%nat) 0) ->
        base (mkSlice 7 (repeat 0 20%nat) 14) = base (mkSlice 7 (repeat 0 20%nat) 0)
        /\ arr (mkSlice 7 (repeat 0 20%nat) 14) = arr (mkSlice 7 (repeat 0 20%nat) 0))
    /\ (cap (mkSlice 7 (repeat 0 20%nat) 0)
        < blen [128; 96; 0; 5; 0; 0; 0; 0; 0; 0; 0; 1; 15; 8; 12; 12]
          - a - blen (sendMKI (ctx freshWorld)) ->
        base (mkSlice 7 (repeat 0 20%nat) 14) = nextBase freshWorld).
Proof.
  apply (decryptRTP_dst_sizing freshWorld (mkSlice 7 (repeat 0 20%nat) 0)
           [128; 96; 0; 5; 0; 0; 0; 0; 0; 0; 0; 1; 15; 8; 12; 12] (hdr 5) 12
           (mkSlice 7 (repeat 0 20%nat) 14) 0).
  vm_compute. do 6 right. left. reflexivity.
Defined.

(** With a nil buffer the transform gets new storage of that length. *)
Example decryptRTP_dst_fresh :
  In (EvDecrypt (mkSlice 1 (repeat 0 14%nat) 14) 0)
     (newEvents freshWorld
        (snd (decryptRTP nilSlice
                [128; 96; 0; 5; 0; 0; 0; 0; 0; 0; 0; 1; 15; 8; 12; 12]
                (hdr 5) 12 freshWorld))).
Proof. vm_compute. do 6 right. left. reflexivity. Qed.

(** C6 on a receiver at the ceiling whose sequence number wraps: the
    estimate reports overflow with rollover count 0, and the call goes on to
    ask the detector about index 0 and to hand the packet to the transform. *)
Example decryptRTP_overflow_goes_on :
  estimate (ctx exhaustedWorld) (hdr 0) = (0, 1, true)
  /\ fst (decryptRTP nilSlice
            [128; 96; 0; 0; 0; 0; 0; 0; 0; 0; 0; 1; 4; 5; 7; 7] (hdr 0) 12
            exhaustedWorld)
     = Ok (mkSlice 1 [128; 96; 0; 0; 0; 0; 0; 0; 0; 0; 0; 1; 3; 2] 14)
  /\ In (EvCheck 1 0)
        (newEvents exhaustedWorld
           (snd (decryptRTP nilSlice
                   [128; 96; 0; 0; 0; 0; 0; 0; 0; 0; 0; 1; 4; 5; 7; 7] (hdr 0) 12
                   exhaustedWorld))).
Proof.
  repeat split; try (vm_compute; reflexivity).
  vm_compute. do 4 right. left. reflexivity.
Qed.

(** C10 with two keys: the packet carries MKI 8, the transform is the one
    registered under it, and the lengths are taken from the send MKI. *)
Lemma decryptRTP_mki_length_witness :
  (fst (decryptRTP nilSlice
          [128; 96; 0; 5; 0; 0; 0; 0; 0; 0; 0; 1; 19; 20; 8; 16; 16] (hdr 5) 12
          mkiWorld)
   = Err (errTooShortRTP
            (blen [128; 96; 0; 5; 0; 0; 0; 0; 0; 0; 0; 1; 19; 20; 8; 16; 16]))
   <-> blen [128; 96; 0; 5; 0; 0; 0; 0; 0; 0; 0; 1; 19; 20; 8; 16; 16]
       < 12 + 0 + blen (sendMKI (ctx mkiWorld)) + 2)
  /\ (forall n,
        In (EvGrow n)
           (newEvents mkiWorld
              (snd (decryptRTP nilSlice
                      [128; 96; 0; 5; 0; 0; 0; 0; 0; 0; 0; 1; 19; 20; 8; 16; 16]
                      (hdr 5) 12 mkiWorld))) ->
        n = blen [128; 96; 0; 5; 0; 0; 0; 0; 0; 0; 0; 1; 19; 20; 8; 16; 16]
            - 2 - blen (sendMKI (ctx mkiWorld)))
  /\ (forall out,
        fst (decryptRTP nilSlice
               [128; 96; 0; 5; 0; 0; 0; 0; 0; 0; 0; 1; 19; 20; 8; 16; 16]
               (hdr 5) 12 mkiWorld) = Ok out ->
        (0 < size (mkis (ctx mkiWorld)))%nat ->
        exists cph d roc,
          mkis (ctx mkiWorld)
            !! getMKI (cipher (ctx mkiWorld))
                 [128; 96; 0; 5; 0; 0; 0; 0; 0; 0; 0; 1; 19; 20; 8; 16; 16] true
          = Some cph
          /\ cipher_decryptRTP cph d
               [128; 96; 0; 5; 0; 0; 0; 0; 0; 0; 0; 1; 19; 20; 8; 16; 16]
               (hdr 5) 12 roc = inr out
          /\ len d
             = blen [128; 96; 0; 5; 0; 0; 0; 0; 0; 0; 0; 1; 19; 20; 8; 16; 16]
               - 2 - blen (sendMKI (ctx mkiWorld))
          /\ In (EvGrow
                   (blen [128; 96; 0; 5; 0; 0; 0; 0; 0; 0; 0; 1; 19; 20; 8; 16; 16]
                    - 2 - blen (sendMKI (ctx mkiWorld))))
                (newEvents mkiWorld
                   (snd (decryptRTP nilSlice
                           [128; 96; 0; 5; 0; 0; 0; 0; 0; 0; 0; 1; 19; 20; 8; 16; 16]
                           (hdr 5) 12 mkiWorld)))).
Proof.
  apply (decryptRTP_mki_length mkiWorld nilSlice
           [128; 96; 0; 5; 0; 0; 0; 0; 0; 0; 0; 1; 19; 20; 8; 16; 16] (hdr 5) 12 2 0);
    reflexivity.
Defined.

(** Where the MKI found in the packet has two bytes and the send MKI one,
    the buffer is grown to 18 - 2 - 1 = 15 bytes, one more than the packet
    without its tag and MKI has. *)
Example decryptRTP_uneven_mki :
  getMKI (cipher (ctx unevenWorld))
    [128; 96; 0; 5; 0; 0; 0; 0; 0; 0; 0; 1; 15; 8; 7; 7; 12; 12] true = [7; 7]
  /\ sendMKI (ctx unevenWorld) = [9]
  /\ In (EvGrow 15)
        (newEvents unevenWorld
           (snd (decryptRTP nilSlice
                   [128; 96; 0; 5; 0; 0; 0; 0; 0; 0; 0; 1; 15; 8; 7; 7; 12; 12]
                   (hdr 5) 12 unevenWorld)))
  /\ fst (decryptRTP nilSlice
            [128; 96; 0; 5; 0; 0; 0; 0; 0; 0; 0; 1; 15; 8; 7; 7; 12; 12]
            (hdr 5) 12 unevenWorld)
     = Ok (mkSlice 1 [128; 96; 0; 5; 0; 0; 0; 0; 0; 0; 0; 1; 3; 4] 14).
Proof.
  repeat split; try (vm_compute; reflexivity).
  vm_compute. do 6 right. left. reflexivity.
Qed.


(** The same with a single key and no MKI. *)
Example roundtrip_single_key :
  fst (EncryptRTP nilSlice [128; 96; 0; 5; 0; 0; 0; 0; 0; 0; 0; 1; 3; 4] None freshWorld)
  = Ok (mkSlice 0 [128; 96; 0; 5; 0; 0; 0; 0; 0; 0; 0; 1; 15; 8; 12; 12] 16)
  /\ fst (DecryptRTP nilSlice [128; 96; 0; 5; 0; 0; 0; 0; 0; 0; 0; 1; 15; 8; 12; 12]
            None freshWorld)
     = Ok (mkSlice 1 [128; 96; 0; 5; 0; 0; 0; 0; 0; 0; 0; 1; 3; 4] 14).
Proof. split; vm_compute; reflexivity. Qed.

(** C9 with a header left over from another packet: the codec fills it as
    it fills a zero header, and the calls give the same. *)
Lemma entry_points_reparse_witness :
  DecryptRTP nilSlice [128; 96; 0; 5; 0; 0; 0; 0; 0; 0; 0; 1; 15; 8; 12; 12]
    (Some zeroHeader) freshWorld
  = DecryptRTP nilSlice [128; 96; 0; 5; 0; 0; 0; 0; 0; 0; 0; 1; 15; 8; 12; 12]
      (Some (mkHeader 2 true true true 111 4242 99 77 [3])) freshWorld
  /\ EncryptRTP nilSlice [128; 96; 0; 5; 0; 0; 0; 0; 0; 0; 0; 1; 15; 8; 12; 12]
       (Some zeroHeader) freshWorld
     = EncryptRTP nilSlice [128; 96; 0; 5; 0; 0; 0; 0; 0; 0; 0; 1; 15; 8; 12; 12]
         (Some (mkHeader 2 true true true 111 4242 99 77 [3])) freshWorld.
Proof.
  apply (proj1 (proj2 (proj2
           (entry_points_reparse freshWorld nilSlice
              [128; 96; 0; 5; 0; 0; 0; 0; 0; 0; 0; 1; 15; 8; 12; 12])))
           zeroHeader (mkHeader 2 true true true 111 4242 99 77 [3])).
  reflexivity.
Defined.

(** A buffer too short for a header: the codec's error comes back and the
    trace shows the unmarshaling only. *)
Example entry_point_unmarshal_fails :
  DecryptRTP nilSlice [128; 96; 0] None freshWorld
  = (Err (errForeign "RTP header size insufficient"),
     logged freshWorld [EvUnmarshal [128; 96; 0]])
  /\ EncryptRTP nilSlice [128; 96; 0] None freshWorld
     = (Err (errForeign "RTP header size insufficient"),
        logged freshWorld [EvUnmarshal [128; 96; 0]]).
Proof. split; reflexivity. Qed.


Example session_marks :
  marks (newEvents freshWorld
           (snd (decryptMany
                   [mkPacket nilSlice
                      [128; 96; 255; 255; 0; 0; 0; 0; 0; 0; 0; 1; 7; 4; 6; 6]
                      (hdr 65535) 12;
                    mkPacket nilSlice
                      [128; 96; 0; 5; 0; 0; 0; 0; 0; 0; 0; 1; 14; 9; 13; 13]
                      (hdr 5) 12;
                    mkPacket nilSlice
                      [128; 96; 0; 5; 0; 0; 0; 0; 0; 0; 0; 1; 14; 9; 13; 13]
                      (hdr 5) 12]
                   freshWorld)))
  = [(1, 65535); (1, 65541)].
Proof. vm_compute. reflexivity. Qed.

(** * Further properties on concrete packets *)

(** X1 with two keys registered: a packet under MKI 7, which is not. *)
Lemma decryptRTP_key_not_found_witness :
  fst (decryptRTP nilSlice [128; 96; 0; 5; 0; 0; 0; 0; 0; 0; 0; 1; 15; 8; 7; 12; 12]
         (hdr 5) 12 mkiWorld) = Err ErrMKINotFound
  /\ newEvents mkiWorld
       (snd (decryptRTP nilSlice
               [128; 96; 0; 5; 0; 0; 0; 0; 0; 0; 0; 1; 15; 8; 7; 12; 12]
               (hdr 5) 12 mkiWorld))
     = upToCheck (hdr 5) 0 ++ [EvGetMKI]
  /\ (forall id,
        stateOf (ctx (snd (decryptRTP nilSlice
                             [128; 96; 0; 5; 0; 0; 0; 0; 0; 0; 0; 1; 15; 8; 7; 12; 12]
                             (hdr 5) 12 mkiWorld))) id
        = stateOf (ctx mkiWorld) id)
  /\ nextBase (snd (decryptRTP nilSlice
                      [128; 96; 0; 5; 0; 0; 0; 0; 0; 0; 0; 1; 15; 8; 7; 12; 12]
                      (hdr 5) 12 mkiWorld))
     = nextBase mkiWorld.
Proof.
  apply (decryptRTP_key_not_found mkiWorld nilSlice
           [128; 96; 0; 5; 0; 0; 0; 0; 0; 0; 0; 1; 15; 8; 7; 12; 12] (hdr 5) 12
           2 0 0 0 false (fun d => 5 :: d));
    try (vm_compute; reflexivity).
  - vm_compute. discriminate.
  - vm_compute. lia.
Defined.

(** X2 with a packet of source 2 arriving where source 1 has a history. *)
Lemma calls_touch_one_source_witness :
  stateOf (ctx (snd (decryptRTP nilSlice
                       [128; 96; 0; 5; 0; 0; 0; 0; 0; 0; 0; 2; 15; 8; 12; 12]
                       (hdr2 5) 12 wrappedWorld))) 1
  = stateOf (ctx wrappedWorld) 1
  /\ stateOf (ctx (snd (encryptRTP nilSlice (hdr2 5) [3; 4] wrappedWorld))) 1
     = stateOf (ctx wrappedWorld) 1.
Proof.
  apply (proj2 (proj2 (calls_touch_one_source wrappedWorld nilSlice
                         [128; 96; 0; 5; 0; 0; 0; 0; 0; 0; 0; 2; 15; 8; 12; 12]
                         [3; 4] (hdr2 5) 12)) 1).
  vm_compute. discriminate.
Defined.

(** X3 with a transform whose encrypt fails: the first packet of source 1
    is not sent, and sequence number 5 is on record. *)
Lemma encryptRTP_commits_before_transform_witness :
  fst (encryptRTP (srtpCipher0 := brokenEncrypt) nilSlice (hdr 5) [3; 4] freshWorld)
  = Err (errForeign "encrypt failed")
  /\ newEvents freshWorld
       (snd (encryptRTP (srtpCipher0 := brokenEncrypt) nilSlice (hdr 5) [3; 4]
               freshWorld))
     = [EvGetState (SSRC (hdr 5));
        EvNextRolloverCount (SSRC (hdr 5)) (SequenceNumber (hdr 5));
        EvUpdateRolloverCount (SSRC (hdr 5)) (SequenceNumber (hdr 5)) 0;
        EvEncrypt [3; 4] 0]
  /\ stateOf (ctx (snd (encryptRTP (srtpCipher0 := brokenEncrypt) nilSlice (hdr 5)
                          [3; 4] freshWorld))) (SSRC (hdr 5))
     = mkSSRCState (ssrc (stateOf (ctx freshWorld) (SSRC (hdr 5))))
         (updateRolloverCount (seqState (stateOf (ctx freshWorld) (SSRC (hdr 5))))
            (SequenceNumber (hdr 5)) 0)
         (replayDetector (stateOf (ctx freshWorld) (SSRC (hdr 5)))).
Proof.
  apply (encryptRTP_commits_before_transform (srtpCipher0 := brokenEncrypt)
           freshWorld nilSlice (hdr 5) [3; 4] 0 0 "encrypt failed");
    reflexivity.
Defined.

Example failed_encrypt_leaves_sequence :
  seqState (stateOf (ctx (snd (encryptRTP (srtpCipher0 := brokenEncrypt) nilSlice
                                 (hdr 5) [3; 4] freshWorld))) 1)
  = mkSeq 0 (Some 5)
  /\ seqState (stateOf (ctx freshWorld) 1) = mkSeq 0 None.
Proof. split; vm_compute; reflexivity. Qed.

(** X5 on the first packet of a source. *)
Lemma decryptRTP_accept_commits_witness :
  snd (Check (replayDetector (stateOf (ctx freshWorld) (SSRC (hdr 5))))
         (packetIndex (fst (fst (estimate (ctx freshWorld) (hdr 5))))
            (SequenceNumber (hdr 5)))) = true
  /\ stateOf (ctx (snd (decryptRTP nilSlice
                          [128; 96; 0; 5; 0; 0; 0; 0; 0; 0; 0; 1; 15; 8; 12; 12]
                          (hdr 5) 12 freshWorld))) (SSRC (hdr 5))
     = mkSSRCState (ssrc (stateOf (ctx freshWorld) (SSRC (hdr 5))))
         (updateRolloverCount (seqState (stateOf (ctx freshWorld) (SSRC (hdr 5))))
            (SequenceNumber (hdr 5))
            (snd (fst (estimate (ctx freshWorld) (hdr 5)))))
         (fst (Check (replayDetector (stateOf (ctx freshWorld) (SSRC (hdr 5))))
                 (packetIndex (fst (fst (estimate (ctx freshWorld) (hdr 5))))
                    (SequenceNumber (hdr 5))))
            (replayDetector (stateOf (ctx freshWorld) (SSRC (hdr 5))))).
Proof.
  apply (decryptRTP_accept_commits freshWorld nilSlice
           [128; 96; 0; 5; 0; 0; 0; 0; 0; 0; 0; 1; 15; 8; 12; 12] (hdr 5) 12
           (mkSlice 1 [128; 96; 0; 5; 0; 0; 0; 0; 0; 0; 0; 1; 3; 4] 14)).
  vm_compute. reflexivity.
Defined.

(** X6 with a forged first packet (wrong tag): the transform rejects it,
    and source 1 is in the registry, which was empty. *)
Lemma decryptRTP_registry_witness :
  is_Some (srtpSSRCStates
             (ctx (snd (decryptRTP nilSlice
                          [128; 96; 0; 5; 0; 0; 0; 0; 0; 0; 0; 1; 15; 8; 0; 0]
                          (hdr 5) 12 freshWorld)))
             !! SSRC (hdr 5)).
Proof.
  apply (proj2 (proj2 (decryptRTP_registry freshWorld nilSlice
                         [128; 96; 0; 5; 0; 0; 0; 0; 0; 0; 0; 1; 15; 8; 0; 0]
                         (hdr 5) 12)) 2 0);
    [reflexivity | reflexivity | vm_compute; discriminate].
Defined.

Example forged_packet_registers_source :
  fst (decryptRTP nilSlice [128; 96; 0; 5; 0; 0; 0; 0; 0; 0; 0; 1; 15; 8; 0; 0]
         (hdr 5) 12 freshWorld)
  = Err (errForeign "failed to verify auth tag")
  /\ srtpSSRCStates (ctx freshWorld) !! 1 = None
  /\ srtpSSRCStates
       (ctx (snd (decryptRTP nilSlice
                    [128; 96; 0; 5; 0; 0; 0; 0; 0; 0; 0; 1; 15; 8; 0; 0]
                    (hdr 5) 12 freshWorld))) !! 1
     = Some (mkSSRCState 1 (mkSeq 0 None) []).
Proof. repeat split; vm_compute; reflexivity. Qed.

(** X8 on the first packet of a source, presented twice. *)
Lemma replay_is_rejected_witness :
  fst (decryptRTP (mkSlice 7 (repeat 0 20%nat) 0)
         [128; 96; 0; 5; 0; 0; 0; 0; 0; 0; 0; 1; 15; 8; 12; 12] (hdr 5) 12
         (snd (decryptRTP nilSlice
                 [128; 96; 0; 5; 0; 0; 0; 0; 0; 0; 0; 1; 15; 8; 12; 12]
                 (hdr 5) 12 freshWorld)))
  = Err (duplicatedError "srtp" (SSRC (hdr 5)) (uint32 (SequenceNumber (hdr 5))))
  /\ (forall id,
        stateOf (ctx (snd (decryptRTP (mkSlice 7 (repeat 0 20%nat) 0)
                             [128; 96; 0; 5; 0; 0; 0; 0; 0; 0; 0; 1; 15; 8; 12; 12]
                             (hdr 5) 12
                             (snd (decryptRTP nilSlice
                                     [128; 96; 0; 5; 0; 0; 0; 0; 0; 0; 0; 1; 15; 8; 12; 12]
                                     (hdr 5) 12 freshWorld))))) id
        = stateOf (ctx (snd (decryptRTP nilSlice
                               [128; 96; 0; 5; 0; 0; 0; 0; 0; 0; 0; 1; 15; 8; 12; 12]
                               (hdr 5) 12 freshWorld))) id).
Proof.
  apply (replay_is_rejected (Hlaw := listDetector_lawful) freshWorld nilSlice
           (mkSlice 7 (repeat 0 20%nat) 0)
           [128; 96; 0; 5; 0; 0; 0; 0; 0; 0; 0; 1; 15; 8; 12; 12] (hdr 5) 12
           (mkSlice 1 [128; 96; 0; 5; 0; 0; 0; 0; 0; 0; 0; 1; 3; 4] 14));
    vm_compute; reflexivity.
Defined.

(** X9 with two keys, a packet under MKI 8 and a transform interface that
    knows tag lengths for key 7 only: cipher 8 decrypts, measured with the
    lengths of cipher 9. *)
Lemma decryptRTP_tag_lengths_of_context_witness :
  decryptRTP (srtpCipher0 := onlyKey7) nilSlice
    [128; 96; 0; 5; 0; 0; 0; 0; 0; 0; 0; 1; 19; 20; 8; 16; 16] (hdr 5) 12 mkiWorld
  = decryptRTP nilSlice
      [128; 96; 0; 5; 0; 0; 0; 0; 0; 0; 0; 1; 19; 20; 8; 16; 16] (hdr 5) 12 mkiWorld.
Proof.
  apply (decryptRTP_tag_lengths_of_context
           (fun c => if key c =? 7 then AuthTagRTPLen c
                     else inl "unknown profile"%string)
           (fun c => if key c =? 7 then AEADAuthTagLen c
                     else inl "unknown profile"%string)
           (fun c ct r => if key c =? 7 then getMKI c ct r else [])
           (fun _ _ _ _ _ => inl "encrypt failed"%string)
           mkiWorld nilSlice
           [128; 96; 0; 5; 0; 0; 0; 0; 0; 0; 0; 1; 19; 20; 8; 16; 16] (hdr 5) 12);
    reflexivity.
Defined.

Example other_cipher_lengths_unasked :
  AuthTagRTPLen (srtpCipher := onlyKey7) cipher8 = inl "unknown profile"%string
  /\ fst (decryptRTP (srtpCipher0 := onlyKey7) nilSlice
            [128; 96; 0; 5; 0; 0; 0; 0; 0; 0; 0; 1; 19; 20; 8; 16; 16] (hdr 5) 12
            mkiWorld)
     = Ok (mkSlice 1 [128; 96; 0; 5; 0; 0; 0; 0; 0; 0; 0; 1; 3; 4] 14).
Proof. split; vm_compute; reflexivity. Qed.

(** X10 on a packet whose header the caller's stale header does not match. *)
Lemma EncryptRTP_payload_witness :
  fst (EncryptRTP nilSlice [128; 96; 0; 5; 0; 0; 0; 0; 0; 0; 0; 1; 3; 4]
         (Some (mkHeader 2 true true true 111 4242 99 77 [3])) freshWorld)
  = match cipher_encryptRTP (cipher (ctx freshWorld)) nilSlice (hdr 5)
            (skipn (Z.to_nat 12) [128; 96; 0; 5; 0; 0; 0; 0; 0; 0; 0; 1; 3; 4]) 0 with
    | inl msg => Err (errForeign msg)
    | inr out => Ok out
    end
  /\ newEvents freshWorld
       (snd (EncryptRTP nilSlice [128; 96; 0; 5; 0; 0; 0; 0; 0; 0; 0; 1; 3; 4]
               (Some (mkHeader 2 true true true 111 4242 99 77 [3])) freshWorld))
     = [EvUnmarshal [128; 96; 0; 5; 0; 0; 0; 0; 0; 0; 0; 1; 3; 4];
        EvGetState (SSRC (hdr 5));
        EvNextRolloverCount (SSRC (hdr 5)) (SequenceNumber (hdr 5));
        EvUpdateRolloverCount (SSRC (hdr 5)) (SequenceNumber (hdr 5)) 0;
        EvEncrypt (skipn (Z.to_nat 12) [128; 96; 0; 5; 0; 0; 0; 0; 0; 0; 0; 1; 3; 4]) 0]
  /\ (12 = blen [128; 96; 0; 5; 0; 0; 0; 0; 0; 0; 0; 1; 3; 4] ->
      skipn (Z.to_nat 12) [128; 96; 0; 5; 0; 0; 0; 0; 0; 0; 0; 1; 3; 4] = []).
Proof.
  apply (EncryptRTP_payload freshWorld nilSlice
           [128; 96; 0; 5; 0; 0; 0; 0; 0; 0; 0; 1; 3; 4]
           (Some (mkHeader 2 true true true 111 4242 99 77 [3])) (hdr 5) 12 0 0);
    [reflexivity | vm_compute; split; discriminate | reflexivity].
Defined.

Example EncryptRTP_header_only :
  fst (EncryptRTP nilSlice [128; 96; 0; 5; 0; 0; 0; 0; 0; 0; 0; 1] None freshWorld)
  = Ok (mkSlice 0 [128; 96; 0; 5; 0; 0; 0; 0; 0; 0; 0; 1; 12; 12] 14).
Proof. vm_compute. reflexivity. Qed.
